(** * AGS3870 methane sensor driver: register transport, CRC-8 and decoders

    A shallow embedding of [AGS3870.cpp] (version 0.1.0).  The driver object
    is a record of its member variables, every member function is a
    function that takes the driver and the outside world (the two-wire bus
    and the millisecond clock) and returns its C++ result together with
    the new driver and the new world.

    Integers are modelled by [Z] with the wrap-around of the C++ type
    written out where a value is stored: [uint8], [uint16], [uint32].
    The width of [int] belongs to the target ([Target]): the products
    [_buffer[i] * 256] of [_readSensor] and [readResistance] are taken in
    [int] and wrap at that width ([to_int]) before they are added to the
    [uint32_t].  [_getDataMSB] and [_getDataLSB] return a [uint16_t], which
    makes the width of [int] immaterial for them. *)

From Stdlib Require Import ZArith List Bool Lia.
From stdpp Require Import base fin vector.
Import ListNotations.

Local Open Scope Z_scope.

(** ** Fixed-width integers *)

Definition uint8 (z : Z) : Z := z mod 256.
Definition uint16 (z : Z) : Z := z mod 65536.
Definition uint32 (z : Z) : Z := z mod 4294967296.

(** ** The target

    The width of [int] in bits: 16 on the 8-bit AVR boards, 32 on the ARM
    and ESP boards. *)

Class Target : Type := { int_bits : Z }.

(** A value brought into the range of [int] the way the Arduino
    compilers do it, in two's complement. *)
Definition to_int `{Target} (z : Z) : Z :=
  (z + 2 ^ (int_bits - 1)) mod 2 ^ int_bits - 2 ^ (int_bits - 1).

(** ** Registers (the [#define]s at the head of the file) *)

Definition AGS3870_PPM : Z := 0x00.
Definition AGS3870_CALIBRATION : Z := 0x01.
Definition AGS3870_VERSION : Z := 0x11.
Definition AGS3870_RESISTANCE : Z := 0x20.

(** ** What [AGS3870.h] declares

    The header is not among the sources.  The error codes it defines are
    taken as parameters: the value each one has when it is stored in the
    error slot. *)

Class Header : Type := {
  AGS3870_OK : Z;
  AGS3870_ERROR_CRC : Z;
  AGS3870_ERROR_READ : Z;
  AGS3870_ERROR_NOT_READY : Z
}.

(** The two records the caller hands in by reference. *)

Record ZeroCalibrationData : Type := mkZeroCalibrationData {
  status : Z;
  value : Z
}.

Record RegisterData : Type := mkRegisterData {
  data : vec Z 4;
  crc : Z;
  crcValid : bool
}.

(** ** The outside world

    [TwoWire] and [millis()] belong to the Arduino core.  A world [W]
    answers every call and moves on; nothing is assumed about the answers.
    [write] returns a count that the driver never looks at, [read] returns
    an [int]. *)

Class Platform (W : Type) : Type := {
  millis : W -> Z * W;
  beginTransmission : Z -> W -> W;
  write : Z -> W -> W;
  endTransmission : bool -> W -> Z * W;
  requestFrom : Z -> Z -> W -> Z * W;
  read : W -> Z * W
}.

(** ** The driver object *)

Record AGS3870 : Type := mkAGS3870 {
  _address : Z;
  _startTime : Z;
  _lastRead : Z;
  _lastPPM : Z;
  _status : Z;
  _error : Z;
  _buffer : vec Z 5
}.

Definition set_startTime (t : Z) (d : AGS3870) : AGS3870 :=
  mkAGS3870 (_address d) t (_lastRead d) (_lastPPM d) (_status d) (_error d)
            (_buffer d).

Definition set_lastRead (t : Z) (d : AGS3870) : AGS3870 :=
  mkAGS3870 (_address d) (_startTime d) t (_lastPPM d) (_status d) (_error d)
            (_buffer d).

Definition set_lastPPM (v : Z) (d : AGS3870) : AGS3870 :=
  mkAGS3870 (_address d) (_startTime d) (_lastRead d) v (_status d) (_error d)
            (_buffer d).

Definition set_status (v : Z) (d : AGS3870) : AGS3870 :=
  mkAGS3870 (_address d) (_startTime d) (_lastRead d) (_lastPPM d) v (_error d)
            (_buffer d).

Definition set_error (e : Z) (d : AGS3870) : AGS3870 :=
  mkAGS3870 (_address d) (_startTime d) (_lastRead d) (_lastPPM d) (_status d)
            e (_buffer d).

(** [_buffer[i] = v] *)
Definition set_buffer (i : fin 5) (v : Z) (d : AGS3870) : AGS3870 :=
  mkAGS3870 (_address d) (_startTime d) (_lastRead d) (_lastPPM d) (_status d)
            (_error d) (vinsert i v (_buffer d)).

(** The driver with a new error value and a new frame, everything else
    as it was. *)
Definition with_frame (e : Z) (frame : vec Z 5) (d : AGS3870) : AGS3870 :=
  mkAGS3870 (_address d) (_startTime d) (_lastRead d) (_lastPPM d)
            (_status d) e frame.

(** [_buffer[i]] *)
Definition buf (d : AGS3870) (i : fin 5) : Z := _buffer d !!! i.

(** ** CRC-8 *)

(** One turn of the inner loop of [_CRC8]. *)
Definition crc_shift (crc : Z) : Z :=
  if negb (Z.land crc 0x80 =? 0)
  then uint8 (Z.lxor (Z.shiftl crc 1) 0x31)
  else uint8 (Z.shiftl crc 1).

(** One turn of the outer loop: [crc ^= buf[b]], then eight shifts. *)
Definition crc_byte (crc x : Z) : Z :=
  Nat.iter 8 crc_shift (uint8 (Z.lxor crc x)).

(** [_CRC8(buf, size)]: [buf] is what the pointer points at, read at the
    indices [0 .. size-1].  Every caller passes [_buffer] with [size] 4 or
    5, so no index leaves the array. *)
Definition _CRC8 (buf : list Z) (size : nat) : Z :=
  fold_left (fun crc b => crc_byte crc (nth b buf 0)) (seq 0 size) 0xFF.

Section Driver.

Context `{Header} `{Target} {W : Type} `{Platform W}.

(** ** Private member functions *)

Definition _readRegister (reg : Z) (d : AGS3870) (w : W)
  : bool * AGS3870 * W :=
  let w := beginTransmission (_address d) w in
  let w := write reg w in
  let '(e, w) := endTransmission true w in
  let d := set_error e d in
  if negb (_error d =? 0) then
    (false, d, w)
  else
    let '(n, w) := requestFrom (_address d) 5 w in
    if negb (n =? 5) then
      (false, set_error AGS3870_ERROR_READ d, w)
    else
      let '(d, w) :=
        fold_left
          (fun (dw : AGS3870 * W) (i : fin 5) =>
             let '(v, w') := read (snd dw) in
             (set_buffer i (uint8 v) (fst dw), w'))
          [0%fin; 1%fin; 2%fin; 3%fin; 4%fin] (d, w) in
      (true, set_error AGS3870_OK d, w).

Definition _writeRegister (reg : Z) (d : AGS3870) (w : W)
  : bool * AGS3870 * W :=
  let w := beginTransmission (_address d) w in
  let w := write reg w in
  let w :=
    fold_left (fun (w : W) (i : fin 5) => write (buf d i) w)
              [0%fin; 1%fin; 2%fin; 3%fin; 4%fin] w in
  let '(e, w) := endTransmission true w in
  let d := set_error e d in
  (_error d =? 0, d, w).

Definition _getDataMSB (d : AGS3870) : Z :=
  uint16 (Z.shiftl (buf d 0%fin) 8 + buf d 1%fin).

Definition _getDataLSB (d : AGS3870) : Z :=
  uint16 (Z.shiftl (buf d 2%fin) 8 + buf d 3%fin).

Definition _readSensor (d : AGS3870) (w : W) : Z * AGS3870 * W :=
  let value := 0 in
  let '(ok, d, w) := _readRegister AGS3870_PPM d w in
  if ok then
    let d := set_error AGS3870_OK d in
    let d := set_status (buf d 0%fin) d in
    let d :=
      if negb (Z.land (_status d) 0x01 =? 0)
      then set_error AGS3870_ERROR_NOT_READY d
      else d in
    let value := uint32 (buf d 1%fin * 65536) in
    let value := uint32 (value + to_int (buf d 2%fin * 256)) in
    let value := uint32 (value + buf d 3%fin) in
    let d :=
      if negb (_CRC8 (vec_to_list (_buffer d)) 5 =? 0)
      then set_error AGS3870_ERROR_CRC d
      else d in
    (value, d, w)
  else
    (value, d, w).

(** ** Public member functions *)

Definition isConnected (d : AGS3870) (w : W) : bool * AGS3870 * W :=
  let w := beginTransmission (_address d) w in
  let '(e, w) := endTransmission true w in
  let rv := e =? 0 in
  (rv, d, w).

Definition reset (d : AGS3870) (w : W) : AGS3870 * W :=
  let '(t, w) := millis w in
  let d := set_startTime t d in
  let d := set_lastRead 0 d in
  let d := set_lastPPM 0 d in
  let d := set_status AGS3870_OK d in
  let d := set_error AGS3870_OK d in
  (d, w).

Definition begin (d : AGS3870) (w : W) : bool * AGS3870 * W :=
  let '(t, w) := millis w in
  let d := set_startTime t d in
  isConnected d w.

Definition getVersion (d : AGS3870) (w : W) : Z * AGS3870 * W :=
  let version := 0xFF in
  let '(ok, d, w) := _readRegister AGS3870_VERSION d w in
  if ok then
    let version := buf d 3%fin in
    let d :=
      if negb (_CRC8 (vec_to_list (_buffer d)) 5 =? 0)
      then set_error AGS3870_ERROR_CRC d
      else d in
    (version, d, w)
  else
    (version, d, w).

Definition readPPM (d : AGS3870) (w : W) : Z * AGS3870 * W :=
  let '(value, d, w) := _readSensor d w in
  if _error d =? AGS3870_OK then
    let '(t, w) := millis w in
    let d := set_lastRead t d in
    let d := set_lastPPM value d in
    (value, d, w)
  else
    let value := _lastPPM d in
    (value, d, w).

Definition readResistance (d : AGS3870) (w : W) : Z * AGS3870 * W :=
  let value := 0 in
  let '(ok, d, w) := _readRegister AGS3870_RESISTANCE d w in
  if ok then
    let value := uint32 (buf d 0%fin * 65536) in
    let value := uint32 (value + to_int (buf d 1%fin * 256)) in
    let value := uint32 (value + buf d 2%fin) in
    let d :=
      if negb (_CRC8 (vec_to_list (_buffer d)) 5 =? 0)
      then set_error AGS3870_ERROR_CRC d
      else d in
    (uint32 (value * 10), d, w)
  else
    (uint32 (value * 10), d, w).

(** The parameter is a [uint16_t]: the caller's argument is converted on
    entry. *)
Definition manualZeroCalibration (value : Z) (d : AGS3870) (w : W)
  : bool * AGS3870 * W :=
  let value := uint16 value in
  let d := set_buffer 0%fin 0x00 d in
  let d := set_buffer 1%fin 0x00 d in
  let d := set_buffer 2%fin (uint8 (Z.shiftr value 8)) d in
  let d := set_buffer 3%fin (uint8 (Z.land value 0x00FF)) d in
  let d := set_buffer 4%fin (_CRC8 (vec_to_list (_buffer d)) 4) d in
  _writeRegister AGS3870_CALIBRATION d w.

Definition getZeroCalibrationData (data : ZeroCalibrationData)
  (d : AGS3870) (w : W) : bool * ZeroCalibrationData * AGS3870 * W :=
  let '(ok, d, w) := _readRegister AGS3870_CALIBRATION d w in
  if negb ok then
    (false, data, d, w)
  else if negb (_CRC8 (vec_to_list (_buffer d)) 5 =? 0) then
    (false, data, set_error AGS3870_ERROR_CRC d, w)
  else
    let d := set_error AGS3870_OK d in
    let data := mkZeroCalibrationData (_getDataMSB d) (value data) in
    let data := mkZeroCalibrationData (status data) (_getDataLSB d) in
    (true, data, d, w).

Definition lastError (d : AGS3870) : Z * AGS3870 :=
  let e := _error d in
  let d := set_error AGS3870_OK d in
  (e, d).

(** The first parameter is a [uint8_t]. *)
Definition readRegister (address : Z) (reg : RegisterData)
  (d : AGS3870) (w : W) : bool * RegisterData * AGS3870 * W :=
  let '(ok, d, w) := _readRegister (uint8 address) d w in
  if negb ok then
    (false, reg, d, w)
  else if negb (_CRC8 (vec_to_list (_buffer d)) 5 =? 0) then
    (false, reg, set_error AGS3870_ERROR_CRC d, w)
  else
    let d := set_error AGS3870_OK d in
    let reg :=
      mkRegisterData (vinsert 0%fin (buf d 0%fin) (data reg))
                     (crc reg) (crcValid reg) in
    let reg :=
      mkRegisterData (vinsert 1%fin (buf d 1%fin) (data reg))
                     (crc reg) (crcValid reg) in
    let reg :=
      mkRegisterData (vinsert 2%fin (buf d 2%fin) (data reg))
                     (crc reg) (crcValid reg) in
    let reg :=
      mkRegisterData (vinsert 3%fin (buf d 3%fin) (data reg))
                     (crc reg) (crcValid reg) in
    let reg := mkRegisterData (data reg) (buf d 4%fin) (crcValid reg) in
    let reg := mkRegisterData (data reg) (crc reg) true in
    (true, reg, d, w).

End Driver.

(** What the three statements [value = h * 65536UL; value += m * 256;
    value += l;] of [_readSensor] and [readResistance] leave in the
    [uint32_t]. *)
Definition composed `{Target} (h m l : Z) : Z :=
  uint32 (uint32 (uint32 (h * 65536) + to_int (m * 256)) + l).

(** ** A test bench for concrete runs

    A scripted world: the answers of the bus are read off lists, every call
    is logged, and the clock ticks once per [millis()]. *)

Inductive BusCall : Type :=
  | CallBegin (address : Z)
  | CallWrite (byte : Z)
  | CallEnd (stop : bool)
  | CallRequest (address quantity : Z)
  | CallRead.

Record Bench : Type := mkBench {
  clock : Z;
  acks : list Z;
  counts : list Z;
  incoming : list Z;
  calls : list BusCall
}.

Definition bench_log (c : BusCall) (b : Bench) : Bench :=
  mkBench (clock b) (acks b) (counts b) (incoming b) (calls b ++ [c]).

#[export] Instance bench_platform : Platform Bench := {
  millis b :=
    (clock b,
     mkBench (clock b + 1) (acks b) (counts b) (incoming b) (calls b));
  beginTransmission a b := bench_log (CallBegin a) b;
  write x b := bench_log (CallWrite x) b;
  endTransmission stop b :=
    (hd 0 (acks b),
     bench_log (CallEnd stop)
       (mkBench (clock b) (tl (acks b)) (counts b) (incoming b) (calls b)));
  requestFrom a n b :=
    (hd 0 (counts b),
     bench_log (CallRequest a n)
       (mkBench (clock b) (acks b) (tl (counts b)) (incoming b) (calls b)));
  read b :=
    (hd (-1) (incoming b),
     bench_log CallRead
       (mkBench (clock b) (acks b) (counts b) (tl (incoming b)) (calls b)))
}.

(** Error codes for the concrete runs: four different values, [0] for
    [AGS3870_OK]. *)
#[export] Instance bench_header : Header := {
  AGS3870_OK := 0;
  AGS3870_ERROR_CRC := -11;
  AGS3870_ERROR_READ := -12;
  AGS3870_ERROR_NOT_READY := -13
}.

(** The targets of the concrete runs: a board with a 32-bit [int], which
    the runs use unless they say otherwise, and an AVR board. *)
#[export] Instance bench_target : Target := { int_bits := 32 }.

Definition avr : Target := {| int_bits := 16 |}.

(** A driver after construction at bus address [26], on a bench whose
    clock has not started. *)
Definition bench_driver : AGS3870 :=
  mkAGS3870 26 0 0 0 0 0 [# 0; 0; 0; 0; 0].

(** The same driver with a reading of 1000 cached at time 50. *)
Definition cached_driver : AGS3870 :=
  mkAGS3870 26 0 50 1000 0 0 [# 0; 0; 0; 0; 0].

(** A bench at time [100] that acknowledges one register read and serves
    the five bytes of [frame]. *)
Definition serving (frame : list Z) : Bench :=
  mkBench 100 [0] [5] frame [].

(** The bench after a register read went through. *)
Definition served (reg : Z) : Bench :=
  mkBench 100 [] [] []
    [CallBegin 26; CallWrite reg; CallEnd true; CallRequest 26 5;
     CallRead; CallRead; CallRead; CallRead; CallRead].

(** A bench whose device does not acknowledge its address (status 2). *)
Definition silent : Bench := mkBench 100 [2] [] [] [].

(** A bench whose device acknowledges and then delivers three bytes. *)
Definition short_of_bytes : Bench := mkBench 100 [0] [3] [1; 2; 3] [].

(** A bench that acknowledges a register write. *)
Definition listening : Bench := mkBench 100 [0] [] [] [].

(** Frames: a PPM reading of 258 with a ready status and its CRC, the
    same with a wrong CRC byte, a reading with the not-ready bit and a
    wrong CRC byte, a raw resistance of 5, calibration data. *)
Definition ppm_frame : list Z := [0x00; 0x00; 0x01; 0x02; 0x41].
Definition ppm_frame_bad_crc : list Z := [0x00; 0x00; 0x01; 0x02; 0x00].
Definition ppm_frame_not_ready_bad_crc : list Z :=
  [0x01; 0x00; 0x01; 0x02; 0x00].
Definition resistance_frame : list Z := [0x00; 0x00; 0x05; 0x00; 0xA0].
Definition calibration_frame : list Z := [0x00; 0x07; 0x01; 0x2C; 0x3B].
Definition calibration_frame_bad_crc : list Z :=
  [0x00; 0x07; 0x01; 0x2C; 0x3A].

(** A bench for two PPM reads in a row: the first frame is sound, the
    second has a wrong CRC byte. *)
Definition two_reads : Bench :=
  mkBench 100 [0; 0] [5; 5] (ppm_frame ++ ppm_frame_bad_crc) [].

Definition after_first_read : Z * AGS3870 * Bench :=
  readPPM bench_driver two_reads.

Definition after_second_read : Z * AGS3870 * Bench :=
  readPPM (snd (fst after_first_read)) (snd after_first_read).


(** What a caller can see of a call: the result, the error slot and the
    world. *)
Definition outcome {A W : Type} (r : A * AGS3870 * W) : A * Z * W :=
  (fst (fst r), _error (snd (fst r)), snd r).

(** Frames whose middle byte is 0x80: a PPM reading of 32768 with a
    ready status, a raw resistance of 32768, and the latter with a wrong
    CRC byte. *)
Definition ppm_frame_32768 : list Z := [0x00; 0x00; 0x80; 0x00; 0xF4].
Definition resistance_frame_32768 : list Z :=
  [0x00; 0x80; 0x00; 0x00; 0x02].
Definition resistance_frame_32768_bad_crc : list Z :=
  [0x00; 0x80; 0x00; 0x00; 0x00].

(** A version frame: version 0x76 and its CRC. *)
Definition version_frame : list Z := [0x00; 0x00; 0x00; 0x76; 0x89].

(** A bench that acknowledges a register write and then a register read,
    and hands back the calibration frame for the value 0x1234. *)
Definition echoing : Bench :=
  mkBench 100 [0; 0] [5] [0x00; 0x00; 0x12; 0x34; 0x61] [].


(** * Properties *)

(** ** Fixed-width integers *)

Lemma uint8_range (z : Z) : 0 <= uint8 z < 256.
Proof. unfold uint8. apply Z.mod_pos_bound. lia. Qed.

Lemma uint8_small (z : Z) : 0 <= z < 256 -> uint8 z = z.
Proof. intros Hz. unfold uint8. apply Z.mod_small. exact Hz. Qed.

Lemma uint16_small (z : Z) : 0 <= z < 65536 -> uint16 z = z.
Proof. intros Hz. unfold uint16. apply Z.mod_small. exact Hz. Qed.

Lemma uint32_small (z : Z) : 0 <= z < 4294967296 -> uint32 z = z.
Proof. intros Hz. unfold uint32. apply Z.mod_small. exact Hz. Qed.

(** The 24-bit composition of [_readSensor] and [readResistance] never
    wraps in a [uint32_t] when its operands are bytes. *)
Lemma compose24 (h m l : Z) :
  0 <= h < 256 -> 0 <= m < 256 -> 0 <= l < 256 ->
  uint32 (uint32 (uint32 (h * 65536) + m * 256) + l)
  = h * 65536 + m * 256 + l.
Proof.
  intros Hh Hm Hl.
  rewrite (uint32_small (h * 65536)) by lia.
  rewrite (uint32_small (h * 65536 + m * 256)) by lia.
  apply uint32_small. lia.
Qed.

(** A value that fits the [int] of the target is left alone. *)
Lemma to_int_small `{Target} (z : Z) :
  0 < int_bits ->
  - 2 ^ (int_bits - 1) <= z < 2 ^ (int_bits - 1) ->
  to_int z = z.
Proof.
  intros Hw Hz. unfold to_int.
  assert (2 ^ int_bits = 2 * 2 ^ (int_bits - 1)) as Hp.
  { rewrite <- Z.pow_succ_r by lia. f_equal. lia. }
  rewrite Z.mod_small by lia. lia.
Qed.

(** With more than 16 bits in an [int] the product of a byte and 256 does
    not overflow. *)
Lemma to_int_byte_product `{Target} (m : Z) :
  16 < int_bits -> 0 <= m < 256 -> to_int (m * 256) = m * 256.
Proof.
  intros Hw Hm. apply to_int_small; [lia|].
  assert (2 ^ 16 <= 2 ^ (int_bits - 1)) as Hp
    by (apply Z.pow_le_mono_r; lia).
  change (2 ^ 16) with 65536 in Hp. lia.
Qed.

Lemma composed_wide `{Target} (h m l : Z) :
  16 < int_bits ->
  0 <= h < 256 -> 0 <= m < 256 -> 0 <= l < 256 ->
  composed h m l = h * 65536 + m * 256 + l.
Proof.
  intros Hw Hh Hm Hl. unfold composed.
  rewrite to_int_byte_product by assumption. apply compose24; assumption.
Qed.

(** Cut down to 16 bits, a value and the [int] it wraps to are the same
    whenever an [int] has at least 16 bits. *)
Lemma uint16_to_int `{Target} (z : Z) :
  16 <= int_bits -> uint16 (to_int z) = uint16 z.
Proof.
  intros Hw. unfold to_int, uint16.
  assert (2 ^ int_bits = 2 ^ (int_bits - 16) * 65536) as Hp.
  { change 65536 with (2 ^ 16). rewrite <- Z.pow_add_r by lia.
    f_equal. lia. }
  assert (0 < 2 ^ int_bits) as Hpos by (apply Z.pow_pos_nonneg; lia).
  rewrite (Z.mod_eq (z + 2 ^ (int_bits - 1)) (2 ^ int_bits)) by lia.
  set (q := (z + 2 ^ (int_bits - 1)) / 2 ^ int_bits).
  replace (z + 2 ^ (int_bits - 1) - 2 ^ int_bits * q - 2 ^ (int_bits - 1))
    with (z + (- (2 ^ (int_bits - 16) * q)) * 65536)
    by (rewrite Hp; ring).
  apply Z.mod_add. discriminate.
Qed.

(** So the [int] arithmetic of [(_buffer[i] << 8) + _buffer[i+1]] leaves
    no trace in the [uint16_t] that [_getDataMSB] and [_getDataLSB]
    return. *)
Lemma getData_any_int `{Target} (h l : Z) :
  16 <= int_bits ->
  uint16 (to_int (to_int (Z.shiftl h 8) + l)) = uint16 (Z.shiftl h 8 + l).
Proof.
  intros Hw. rewrite uint16_to_int by exact Hw. unfold uint16.
  rewrite Z.add_mod by discriminate.
  fold (uint16 (to_int (Z.shiftl h 8))).
  rewrite uint16_to_int by exact Hw. unfold uint16.
  rewrite <- Z.add_mod by discriminate. reflexivity.
Qed.

(** The 16-bit composition of [_getDataMSB] and [_getDataLSB]. *)
Lemma compose16 (h l : Z) :
  0 <= h < 256 -> 0 <= l < 256 ->
  uint16 (Z.shiftl h 8 + l) = h * 256 + l.
Proof.
  intros Hh Hl. rewrite Z.shiftl_mul_pow2 by lia.
  change (2 ^ 8) with 256. apply uint16_small. lia.
Qed.

(** ** CRC-8 *)

Lemma crc_shift_range (c : Z) : 0 <= crc_shift c < 256.
Proof. unfold crc_shift. destruct (negb _); apply uint8_range. Qed.

Lemma crc_byte_range (c x : Z) : 0 <= crc_byte c x < 256.
Proof. unfold crc_byte. cbn [Nat.iter]. apply crc_shift_range. Qed.

(** Feeding the running checksum to itself clears it: the exclusive or
    leaves [0], and shifting [0] never meets the polynomial. *)
Lemma crc_byte_self (c : Z) : crc_byte c c = 0.
Proof. unfold crc_byte. rewrite Z.lxor_nilpotent. vm_compute. reflexivity. Qed.

(** The loop of [_CRC8] over a frame of five bytes, unrolled. *)
Lemma _CRC8_frame5 (b0 b1 b2 b3 b4 : Z) :
  _CRC8 [b0; b1; b2; b3; b4] 5
  = crc_byte (_CRC8 [b0; b1; b2; b3; b4] 4) b4.
Proof. unfold _CRC8. cbn [seq fold_left nth]. reflexivity. Qed.

(** [_CRC8] over four bytes does not look at the fifth. *)
Lemma _CRC8_payload4 (b0 b1 b2 b3 b4 : Z) :
  _CRC8 [b0; b1; b2; b3; b4] 4 = _CRC8 [b0; b1; b2; b3] 4.
Proof. unfold _CRC8. cbn [seq fold_left nth]. reflexivity. Qed.

Lemma _CRC8_range (l : list Z) (n : nat) : 0 <= _CRC8 l n < 256.
Proof.
  unfold _CRC8. destruct n as [|n].
  - cbn. lia.
  - rewrite seq_S, fold_left_app. cbn [fold_left]. apply crc_byte_range.
Qed.

(** C3. CRC-8 round trip: for every payload of four bytes, the CRC-8 of
    [_CRC8] (polynomial 0x31, start value 0xFF, most significant bit
    first) computed over the four bytes and stored as fifth byte makes
    [_CRC8] over all five bytes return exactly 0. *)
Theorem _CRC8_round_trip (b0 b1 b2 b3 : Z) :
  _CRC8 [b0; b1; b2; b3; _CRC8 [b0; b1; b2; b3] 4] 5 = 0.
Proof.
  rewrite _CRC8_frame5, _CRC8_payload4. apply crc_byte_self.
Qed.

(** The same on the driver's buffer: what [manualZeroCalibration] stores
    in [_buffer[4]] passes the check the read functions apply. *)
Lemma _CRC8_buffer_round_trip (v : vec Z 5) :
  _CRC8 (vec_to_list (vinsert 4%fin (_CRC8 (vec_to_list v) 4) v)) 5 = 0.
Proof.
  inv_vec v; intros b0 b1 b2 b3 b4. cbn -[_CRC8].
  rewrite _CRC8_frame5. rewrite !_CRC8_payload4. apply crc_byte_self.
Qed.

(** The golden vector of the test plan. *)
Example _CRC8_known_vector : _CRC8 [0x00; 0x00; 0x12; 0x34] 4 = 0x61.
Proof. vm_compute. reflexivity. Qed.

(** ** The register transport *)

Section Transport.

Context `{Header} {W : Type} `{Platform W}.

(** [_readRegister] with its loop unrolled and the answers of the world
    named. *)
Lemma _readRegister_unfold (reg : Z) (d : AGS3870) (w : W) :
  _readRegister reg d w =
    let '(e, w1) :=
      endTransmission true (write reg (beginTransmission (_address d) w)) in
    if negb (e =? 0) then (false, set_error e d, w1) else
    let '(n, w2) := requestFrom (_address d) 5 w1 in
    if negb (n =? 5) then (false, set_error AGS3870_ERROR_READ d, w2) else
    let '(r0, w3) := read w2 in
    let '(r1, w4) := read w3 in
    let '(r2, w5) := read w4 in
    let '(r3, w6) := read w5 in
    let '(r4, w7) := read w6 in
    (true,
     with_frame AGS3870_OK
       [# uint8 r0; uint8 r1; uint8 r2; uint8 r3; uint8 r4] d,
     w7).
Proof.
  unfold _readRegister.
  destruct (endTransmission _ _) as [e w1]. cbn [set_error _error _address].
  destruct (negb (e =? 0)); [reflexivity|].
  destruct (requestFrom _ _ _) as [n w2].
  destruct (negb (n =? 5)); [reflexivity|].
  cbn [fold_left fst snd].
  destruct (read w2) as [r0 w3]. cbn [fst snd].
  destruct (read w3) as [r1 w4]. cbn [fst snd].
  destruct (read w4) as [r2 w5]. cbn [fst snd].
  destruct (read w5) as [r3 w6]. cbn [fst snd].
  destruct (read w6) as [r4 w7]. cbn [fst snd].
  destruct d as [a st lr lp s er b]. inv_vec b; intros b0 b1 b2 b3 b4.
  reflexivity.
Qed.

(** Whatever happens, [_readRegister] touches the error slot and the
    buffer only. *)
Lemma _readRegister_frame_only (reg : Z) (d d1 : AGS3870) (w w1 : W)
    (ok : bool) :
  _readRegister reg d w = (ok, d1, w1) ->
  d1 = with_frame (_error d1) (_buffer d1) d.
Proof.
  rewrite _readRegister_unfold.
  destruct (endTransmission _ _) as [e u1].
  destruct (negb (e =? 0)); [intros [= <- <- <-]; reflexivity|].
  destruct (requestFrom _ _ _) as [n u2].
  destruct (negb (n =? 5)); [intros [= <- <- <-]; reflexivity|].
  destruct (read u2) as [r0 u3]. destruct (read u3) as [r1 u4].
  destruct (read u4) as [r2 u5]. destruct (read u5) as [r3 u6].
  destruct (read u6) as [r4 u7].
  intros [= <- <- <-]. reflexivity.
Qed.

(** After a read that succeeded the error slot holds [AGS3870_OK] and
    every cell of the buffer holds a byte. *)
Lemma _readRegister_success (reg : Z) (d d1 : AGS3870) (w w1 : W) :
  _readRegister reg d w = (true, d1, w1) ->
  _error d1 = AGS3870_OK /\ forall i : fin 5, 0 <= buf d1 i < 256.
Proof.
  rewrite _readRegister_unfold.
  destruct (endTransmission _ _) as [e u1].
  destruct (negb (e =? 0)); [discriminate|].
  destruct (requestFrom _ _ _) as [n u2].
  destruct (negb (n =? 5)); [discriminate|].
  destruct (read u2) as [r0 u3]. destruct (read u3) as [r1 u4].
  destruct (read u4) as [r2 u5]. destruct (read u5) as [r3 u6].
  destruct (read u6) as [r4 u7].
  intros [= <- <-]. split; [reflexivity|].
  intros i. unfold buf, with_frame. cbn [_buffer].
  inv_fin i; [|intros i; inv_fin i; [|intros i; inv_fin i;
    [|intros i; inv_fin i; [|intros i; inv_fin i; [|intros i; inv_fin i]]]]];
    cbn; apply uint8_range.
Qed.

(** After a read that failed the buffer is as it was. *)
Lemma _readRegister_failure (reg : Z) (d d1 : AGS3870) (w w1 : W) :
  _readRegister reg d w = (false, d1, w1) ->
  d1 = set_error (_error d1) d.
Proof.
  rewrite _readRegister_unfold.
  destruct (endTransmission _ _) as [e u1].
  destruct (negb (e =? 0)); [intros [= <- <-]; reflexivity|].
  destruct (requestFrom _ _ _) as [n u2].
  destruct (negb (n =? 5)); [intros [= <- <-]; reflexivity|].
  destruct (read u2) as [r0 u3]. destruct (read u3) as [r1 u4].
  destruct (read u4) as [r2 u5]. destruct (read u5) as [r3 u6].
  destruct (read u6) as [r4 u7].
  discriminate.
Qed.

(** C7. Low-level register read: when closing the address write fails,
    the status code the transport returned is recorded as the current
    error and the read fails without a frame (the buffer is as it was);
    otherwise, when fewer than 5 bytes are available from the request, a
    read error is recorded and the read fails; otherwise the 5 bytes
    received are copied into the buffer in order and the error is
    [AGS3870_OK].  The transport never hands out more bytes than were
    asked for. *)
Theorem _readRegister_outcome (reg : Z) (d : AGS3870) (w w1 w2 : W)
    (e n : Z) (r0 r1 r2 r3 r4 : Z) (w3 w4 w5 w6 w7 : W) :
  endTransmission true (write reg (beginTransmission (_address d) w))
    = (e, w1) ->
  requestFrom (_address d) 5 w1 = (n, w2) ->
  n <= 5 ->
  read w2 = (r0, w3) -> read w3 = (r1, w4) -> read w4 = (r2, w5) ->
  read w5 = (r3, w6) -> read w6 = (r4, w7) ->
  _readRegister reg d w =
    if negb (e =? 0) then
      (false, with_frame e (_buffer d) d, w1)
    else if n <? 5 then
      (false, with_frame AGS3870_ERROR_READ (_buffer d) d, w2)
    else
      (true,
       with_frame AGS3870_OK
         [# uint8 r0; uint8 r1; uint8 r2; uint8 r3; uint8 r4] d,
       w7).
Proof.
  intros He Hn Hle Hr0 Hr1 Hr2 Hr3 Hr4.
  rewrite _readRegister_unfold, He.
  destruct (negb (e =? 0)); [reflexivity|].
  rewrite Hn.
  destruct (Z.ltb_spec n 5) as [Hlt|Hge].
  - replace (n =? 5) with false by (symmetry; apply Z.eqb_neq; lia).
    reflexivity.
  - replace (n =? 5) with true by (symmetry; apply Z.eqb_eq; lia).
    cbn [negb]. rewrite Hr0, Hr1, Hr2, Hr3, Hr4. reflexivity.
Qed.

End Transport.

(** ** The decoders *)

Section Decoders.

Context `{Header} `{Target} {W : Type} `{Platform W}.

(** [_readSensor] on a frame that was received: the value, the status
    and the error it leaves. *)
Lemma _readSensor_received (d d1 : AGS3870) (w w1 : W) :
  _readRegister AGS3870_PPM d w = (true, d1, w1) ->
  _readSensor d w =
    (composed (buf d1 1%fin) (buf d1 2%fin) (buf d1 3%fin),
     set_error
       (if negb (_CRC8 (vec_to_list (_buffer d1)) 5 =? 0)
        then AGS3870_ERROR_CRC
        else if negb (Z.land (buf d1 0%fin) 0x01 =? 0)
             then AGS3870_ERROR_NOT_READY
             else AGS3870_OK)
       (set_status (buf d1 0%fin) d1),
     w1).
Proof.
  intros Hrd. unfold _readSensor, composed. rewrite Hrd. clear Hrd.
  destruct d1 as [a st lr lp s e b]. unfold buf in *.
  cbn [set_error set_status _status _buffer _address _startTime
       _lastRead _lastPPM _error] in *.
  destruct (negb (Z.land (b !!! 0%fin) 1 =? 0));
    cbn [set_error set_status _status _buffer _address _startTime
         _lastRead _lastPPM _error];
    destruct (negb (_CRC8 (vec_to_list b) 5 =? 0)); reflexivity.
Qed.

(** The decode step never touches the cache. *)
Lemma _readSensor_keeps_cache (d d1 : AGS3870) (w w1 : W) (v : Z) :
  _readSensor d w = (v, d1, w1) ->
  _lastPPM d1 = _lastPPM d /\ _lastRead d1 = _lastRead d.
Proof.
  unfold _readSensor.
  destruct (_readRegister AGS3870_PPM d w) as [[ok d0] w0] eqn:Hrd.
  pose proof (_readRegister_frame_only _ _ _ _ _ _ Hrd) as Hd0.
  assert (_lastPPM d0 = _lastPPM d /\ _lastRead d0 = _lastRead d) as [Hp Hr]
    by (rewrite Hd0; split; reflexivity).
  destruct ok.
  - destruct (negb (Z.land _ _ =? 0)), (negb (_CRC8 _ _ =? 0));
      intros [= <- <- <-]; split; assumption.
  - intros [= <- <- <-]. split; assumption.
Qed.

(** [readPPM] once the decode step is over. *)
Lemma readPPM_after_decode (d d1 : AGS3870) (w w1 : W) (v : Z) :
  _readSensor d w = (v, d1, w1) ->
  readPPM d w =
    if _error d1 =? AGS3870_OK then
      let '(t, w2) := millis w1 in
      (v, set_lastPPM v (set_lastRead t d1), w2)
    else
      (_lastPPM d, d1, w1).
Proof.
  intros Hs. unfold readPPM. rewrite Hs.
  destruct (_readSensor_keeps_cache _ _ _ _ _ Hs) as [Hp _].
  rewrite Hp. reflexivity.
Qed.

(** C1. [readPPM]: when the decode step leaves the error at
    [AGS3870_OK], the value just decoded is returned and the cache and its
    timestamp become that value and the current time; with any other
    error the value cached before is returned and the cache and its
    timestamp stay as they were. *)
Theorem readPPM_policy (d d1 : AGS3870) (w w1 w2 : W) (v t : Z) :
  _readSensor d w = (v, d1, w1) ->
  millis w1 = (t, w2) ->
  (_error d1 = AGS3870_OK ->
     readPPM d w = (v, set_lastPPM v (set_lastRead t d1), w2) /\
     fst (fst (readPPM d w)) = v /\
     _lastPPM (snd (fst (readPPM d w))) = v /\
     _lastRead (snd (fst (readPPM d w))) = t) /\
  (_error d1 <> AGS3870_OK ->
     readPPM d w = (_lastPPM d, d1, w1) /\
     fst (fst (readPPM d w)) = _lastPPM d /\
     _lastPPM (snd (fst (readPPM d w))) = _lastPPM d /\
     _lastRead (snd (fst (readPPM d w))) = _lastRead d).
Proof.
  intros Hs Hm. rewrite (readPPM_after_decode _ _ _ _ _ Hs).
  destruct (_readSensor_keeps_cache _ _ _ _ _ Hs) as [Hp Hr].
  split; intros He.
  - rewrite (proj2 (Z.eqb_eq _ _) He), Hm. repeat split.
  - rewrite (proj2 (Z.eqb_neq _ _) He). cbn [fst snd].
    repeat split; assumption.
Qed.

(** C2, as the code has it.  On a frame that was received with the ready
    status, the cache takes the decoded value and the current time when
    the CRC check over the frame passes; when the check fails, the cached
    value is returned and the cache and its timestamp stay as they
    were.  The decoded value is what [_readSensor] composes from bytes 1
    to 3, the 24-bit number when an [int] has more than 16 bits. *)
Theorem readPPM_cache_needs_crc (d d1 : AGS3870) (w w1 w2 : W) (t : Z) :
  _readRegister AGS3870_PPM d w = (true, d1, w1) ->
  Z.land (buf d1 0%fin) 0x01 = 0 ->
  millis w1 = (t, w2) ->
  AGS3870_ERROR_CRC <> AGS3870_OK ->
  let decoded := composed (buf d1 1%fin) (buf d1 2%fin) (buf d1 3%fin) in
  let ready := set_status (buf d1 0%fin) d1 in
  (16 < int_bits ->
     decoded = buf d1 1%fin * 65536 + buf d1 2%fin * 256 + buf d1 3%fin) /\
  (_CRC8 (vec_to_list (_buffer d1)) 5 = 0 ->
     readPPM d w =
       (decoded,
        set_lastPPM decoded (set_lastRead t (set_error AGS3870_OK ready)),
        w2) /\
     _lastPPM (snd (fst (readPPM d w))) = decoded /\
     _lastRead (snd (fst (readPPM d w))) = t) /\
  (_CRC8 (vec_to_list (_buffer d1)) 5 <> 0 ->
     readPPM d w = (_lastPPM d, set_error AGS3870_ERROR_CRC ready, w1) /\
     _lastPPM ready = _lastPPM d /\ _lastRead ready = _lastRead d).
Proof.
  intros Hrd Hready Hm Hne decoded ready.
  pose proof (_readSensor_received _ _ _ _ Hrd) as Hs.
  rewrite Hready in Hs. cbn [Z.eqb negb] in Hs. fold decoded ready in Hs.
  split; [|split]; [intros Hw | intros Hcrc | intros Hcrc].
  - destruct (_readRegister_success _ _ _ _ _ Hrd) as [_ Hb].
    apply composed_wide; [exact Hw | apply Hb ..].
  - rewrite Hcrc in Hs. cbn [Z.eqb negb] in Hs.
    rewrite (readPPM_after_decode _ _ _ _ _ Hs). cbn [_error set_error].
    rewrite Z.eqb_refl, Hm. repeat split.
  - rewrite (proj2 (Z.eqb_neq _ _) Hcrc) in Hs. cbn [negb] in Hs.
    rewrite (readPPM_after_decode _ _ _ _ _ Hs). cbn [_error set_error].
    rewrite (proj2 (Z.eqb_neq _ _) Hne).
    split; [reflexivity|].
    exact (_readSensor_keeps_cache _ _ _ _ _ Hs).
Qed.

(** C6. [lastError] returns the current error and resets the slot to
    [AGS3870_OK]; a second call right after the first returns
    [AGS3870_OK]. *)
Theorem lastError_consumes (d : AGS3870) :
  lastError d = (_error d, set_error AGS3870_OK d) /\
  fst (lastError (snd (lastError d))) = AGS3870_OK.
Proof. split; reflexivity. Qed.

(** C10. When the register read fails, because closing the address write
    returned an error or because fewer than 5 bytes arrived, the result
    of [readResistance] is exactly 0 and nothing but the error slot has
    changed: there is no cached value to fall back on. *)
Theorem readResistance_failure (d : AGS3870) (w w1 w2 : W) (e n : Z) :
  endTransmission true
    (write AGS3870_RESISTANCE (beginTransmission (_address d) w))
    = (e, w1) ->
  requestFrom (_address d) 5 w1 = (n, w2) ->
  e <> 0 \/ n < 5 ->
  readResistance d w =
    (0,
     set_error (if e =? 0 then AGS3870_ERROR_READ else e) d,
     if e =? 0 then w2 else w1).
Proof.
  intros He Hn Hfail. unfold readResistance.
  rewrite _readRegister_unfold, He.
  destruct (Z.eqb_spec e 0) as [E0|E0]; cbn [negb]; [|reflexivity].
  rewrite Hn. replace (n =? 5) with false
    by (symmetry; apply Z.eqb_neq; lia).
  reflexivity.
Qed.

(** C4. The strict decoders: when the read of the 5 bytes fails, or the
    CRC check over them fails, [getZeroCalibrationData] and
    [readRegister] return [false] and hand back the caller's record as it
    came in; on success only, [getZeroCalibrationData] fills in the two
    big-endian 16-bit halves of bytes 0..1 and 2..3, and [readRegister]
    the four data bytes, the CRC byte and the validity flag. *)
Theorem strict_decoders (address : Z) (data : ZeroCalibrationData)
    (reg : RegisterData) (d dc dr : AGS3870) (w wc wr : W)
    (okc okr : bool) :
  _readRegister AGS3870_CALIBRATION d w = (okc, dc, wc) ->
  _readRegister (uint8 address) d w = (okr, dr, wr) ->
  getZeroCalibrationData data d w =
    (if okc && (_CRC8 (vec_to_list (_buffer dc)) 5 =? 0)
     then (true,
           mkZeroCalibrationData
             (buf dc 0%fin * 256 + buf dc 1%fin)
             (buf dc 2%fin * 256 + buf dc 3%fin),
           set_error AGS3870_OK dc, wc)
     else (false, data,
           (if okc then set_error AGS3870_ERROR_CRC dc else dc), wc)) /\
  readRegister address reg d w =
    (if okr && (_CRC8 (vec_to_list (_buffer dr)) 5 =? 0)
     then (true,
           mkRegisterData
             [# buf dr 0%fin; buf dr 1%fin; buf dr 2%fin; buf dr 3%fin]
             (buf dr 4%fin) true,
           set_error AGS3870_OK dr, wr)
     else (false, reg,
           (if okr then set_error AGS3870_ERROR_CRC dr else dr), wr)).
Proof.
  intros Hc Hr. split.
  - unfold getZeroCalibrationData. rewrite Hc.
    destruct okc; cbn [negb andb]; [|reflexivity].
    destruct (_readRegister_success _ _ _ _ _ Hc) as [_ Hb].
    destruct (_CRC8 (vec_to_list (_buffer dc)) 5 =? 0);
      cbn [negb]; [|reflexivity].
    unfold _getDataMSB, _getDataLSB. cbn [status value].
    change (buf (set_error AGS3870_OK dc)) with (buf dc).
    rewrite !compose16 by apply Hb. reflexivity.
  - unfold readRegister. rewrite Hr.
    destruct okr; cbn [negb andb]; [|reflexivity].
    destruct (_CRC8 (vec_to_list (_buffer dr)) 5 =? 0);
      cbn [negb]; [|reflexivity].
    destruct reg as [dt c v]. inv_vec dt; intros x0 x1 x2 x3.
    reflexivity.
Qed.

(** C9. Manual zero calibration: for a 16-bit [value] the frame is
    0x00, 0x00, the high byte of [value], the low byte of [value] and the
    CRC-8 over these four bytes; it is written to the calibration
    register (the address byte, then the five bytes of the frame) and the
    result is [true] exactly when closing the transmission returned 0. *)
Theorem manualZeroCalibration_frame (value0 : Z) (d : AGS3870) (w w1 : W)
    (e : Z) :
  0 <= value0 < 65536 ->
  let hi := value0 / 256 in
  let lo := value0 mod 256 in
  let c := _CRC8 [0x00; 0x00; hi; lo] 4 in
  endTransmission true
    (write c (write lo (write hi (write 0x00 (write 0x00
      (write AGS3870_CALIBRATION (beginTransmission (_address d) w)))))))
    = (e, w1) ->
  manualZeroCalibration value0 d w
  = (e =? 0, with_frame e [# 0x00; 0x00; hi; lo; c] d, w1).
Proof.
  intros Hv hi lo c He.
  assert (uint8 (Z.shiftr (uint16 value0) 8) = hi) as Hhi.
  { rewrite uint16_small by exact Hv. rewrite Z.shiftr_div_pow2 by lia.
    change (2 ^ 8) with 256. apply uint8_small.
    subst hi. split; [apply Z.div_pos; lia|].
    apply Z.div_lt_upper_bound; lia. }
  assert (uint8 (Z.land (uint16 value0) 0x00FF) = lo) as Hlo.
  { rewrite uint16_small by exact Hv.
    change 0x00FF with (Z.ones 8). rewrite Z.land_ones by lia.
    change (2 ^ 8) with 256. apply uint8_small.
    subst lo. apply Z.mod_pos_bound. lia. }
  unfold manualZeroCalibration. rewrite Hhi, Hlo. revert He.
  destruct d as [a st lr lp s er b]. inv_vec b; intros b0 b1 b2 b3 b4 He.
  unfold _writeRegister, set_buffer, buf.
  cbn -[_CRC8 Z.eqb AGS3870_CALIBRATION].
  rewrite _CRC8_payload4. fold c.
  cbn [_address] in He. rewrite He. reflexivity.
Qed.

End Decoders.

(** ** Concrete runs on the bench *)

(** A register read that goes through: the five bytes served end up in
    the buffer in the order they came. *)
Lemma _readRegister_outcome_witness :
  _readRegister AGS3870_RESISTANCE bench_driver (serving resistance_frame)
  = (true, with_frame 0 [# 0x00; 0x00; 0x05; 0x00; 0xA0] bench_driver,
     served AGS3870_RESISTANCE).
Proof.
  erewrite _readRegister_outcome; cycle 1.
  - vm_compute; reflexivity.
  - vm_compute; reflexivity.
  - lia.
  - vm_compute; reflexivity.
  - vm_compute; reflexivity.
  - vm_compute; reflexivity.
  - vm_compute; reflexivity.
  - vm_compute; reflexivity.
  - vm_compute; reflexivity.
Defined.

(** Two PPM reads over a cache of 1000 from time 50: a sound frame makes
    the result and the cache 258 and the timestamp 100; a frame that
    fails the CRC check returns the cached 1000 and leaves the cache and
    its timestamp alone. *)
Lemma readPPM_policy_witness :
  (_readSensor cached_driver (serving ppm_frame)
     = (258,
        mkAGS3870 26 0 50 1000 0x00 AGS3870_OK
                  [# 0x00; 0x00; 0x01; 0x02; 0x41],
        served AGS3870_PPM) /\
   fst (fst (readPPM cached_driver (serving ppm_frame))) = 258 /\
   _lastPPM (snd (fst (readPPM cached_driver (serving ppm_frame)))) = 258 /\
   _lastRead (snd (fst (readPPM cached_driver (serving ppm_frame))))
     = 100) /\
  (_readSensor cached_driver (serving ppm_frame_bad_crc)
     = (258,
        mkAGS3870 26 0 50 1000 0x00 AGS3870_ERROR_CRC
                  [# 0x00; 0x00; 0x01; 0x02; 0x00],
        served AGS3870_PPM) /\
   fst (fst (readPPM cached_driver (serving ppm_frame_bad_crc)))
     = _lastPPM cached_driver /\
   _lastPPM (snd (fst (readPPM cached_driver (serving ppm_frame_bad_crc))))
     = _lastPPM cached_driver /\
   _lastRead (snd (fst (readPPM cached_driver (serving ppm_frame_bad_crc))))
     = _lastRead cached_driver).
Proof.
  assert (_readSensor cached_driver (serving ppm_frame)
    = (258,
       mkAGS3870 26 0 50 1000 0x00 AGS3870_OK
                 [# 0x00; 0x00; 0x01; 0x02; 0x41],
       served AGS3870_PPM)) as Hgood by (vm_compute; reflexivity).
  assert (_readSensor cached_driver (serving ppm_frame_bad_crc)
    = (258,
       mkAGS3870 26 0 50 1000 0x00 AGS3870_ERROR_CRC
                 [# 0x00; 0x00; 0x01; 0x02; 0x00],
       served AGS3870_PPM)) as Hbad by (vm_compute; reflexivity).
  split.
  - split; [exact Hgood|].
    destruct (readPPM_policy _ _ _ _
                (snd (millis (served AGS3870_PPM))) _ 100 Hgood)
      as [Hok _]; [vm_compute; reflexivity|].
    destruct Hok as (_ & Hv & Hp & Hr); [vm_compute; reflexivity|].
    split; [exact Hv|]. split; [exact Hp | exact Hr].
  - split; [exact Hbad|].
    destruct (readPPM_policy _ _ _ _
                (snd (millis (served AGS3870_PPM))) _ 100 Hbad)
      as [_ Hko]; [vm_compute; reflexivity|].
    destruct Hko as (_ & Hv & Hp & Hr); [vm_compute; discriminate|].
    split; [exact Hv|]. split; [exact Hp | exact Hr].
Defined.

(** The same run seen from C2: the bus answered, the status byte says
    ready, the CRC byte is wrong, and the cache keeps 1000. *)
Lemma readPPM_cache_needs_crc_witness :
  _readRegister AGS3870_PPM cached_driver (serving ppm_frame_bad_crc)
    = (true, with_frame 0 [# 0x00; 0x00; 0x01; 0x02; 0x00] cached_driver,
       served AGS3870_PPM) /\
  AGS3870_ERROR_CRC <> AGS3870_OK /\
  _CRC8 [0x00; 0x00; 0x01; 0x02; 0x00] 5 <> 0 /\
  readPPM cached_driver (serving ppm_frame_bad_crc)
    = (1000,
       mkAGS3870 26 0 50 1000 0x00 AGS3870_ERROR_CRC
                 [# 0x00; 0x00; 0x01; 0x02; 0x00],
       served AGS3870_PPM).
Proof.
  assert (_readRegister AGS3870_PPM cached_driver (serving ppm_frame_bad_crc)
    = (true, with_frame 0 [# 0x00; 0x00; 0x01; 0x02; 0x00] cached_driver,
       served AGS3870_PPM)) as Hrd by (vm_compute; reflexivity).
  assert (AGS3870_ERROR_CRC <> AGS3870_OK) as Hne
    by (vm_compute; discriminate).
  assert (_CRC8 [0x00; 0x00; 0x01; 0x02; 0x00] 5 <> 0) as Hcrc
    by (vm_compute; discriminate).
  split; [exact Hrd|]. split; [exact Hne|]. split; [exact Hcrc|].
  destruct (readPPM_cache_needs_crc _ _ _ _
              (snd (millis (served AGS3870_PPM)))
              (fst (millis (served AGS3870_PPM))) Hrd)
    as (_ & _ & Hko); [vm_compute; reflexivity | vm_compute; reflexivity
                      | exact Hne |].
  destruct Hko as [Heq _]; [exact Hcrc|].
  etransitivity; [exact Heq | vm_compute; reflexivity].
Defined.

(** C2 as it is stated fails: the bus answers, the status byte says
    ready, the CRC byte is wrong, and the cache keeps 1000 instead of
    taking the 258 that was decoded. *)
Lemma readPPM_cache_counterexample :
  fst (fst (_readRegister AGS3870_PPM cached_driver
                          (serving ppm_frame_bad_crc))) = true /\
  Z.land (_status (snd (fst (_readSensor cached_driver
                                         (serving ppm_frame_bad_crc)))))
         0x01 = 0 /\
  _CRC8 ppm_frame_bad_crc 5 <> 0 /\
  fst (fst (_readSensor cached_driver (serving ppm_frame_bad_crc))) = 258 /\
  _lastPPM (snd (fst (readPPM cached_driver (serving ppm_frame_bad_crc))))
    = 1000 /\
  _lastPPM (snd (fst (readPPM cached_driver (serving ppm_frame_bad_crc))))
    <> fst (fst (_readSensor cached_driver (serving ppm_frame_bad_crc))).
Proof.
  vm_compute. repeat split; discriminate.
Qed.

(** C5. The decoded value is not [_buffer[1] * 65536 + _buffer[2] * 256 +
    _buffer[3]] on every target.  On an AVR board, whose [int] has 16
    bits, the sound frame 0x00, 0x00, 0x80, 0x00 with the ready status
    is decoded by [_readSensor] as 4294934528 and not as 32768: the
    product [_buffer[2] * 256] is taken in [int] and overflows, where
    [_buffer[1] * 65536UL] next to it is widened.  [readPPM] returns and
    caches that number.  With a 32-bit [int] the frame gives 32768. *)
Theorem _readSensor_int16_overflow :
  _CRC8 ppm_frame_32768 5 = 0 /\
  @_readSensor bench_header avr Bench bench_platform
     bench_driver (serving ppm_frame_32768)
    = (4294934528,
       mkAGS3870 26 0 0 0 0x00 AGS3870_OK [# 0x00; 0x00; 0x80; 0x00; 0xF4],
       served AGS3870_PPM) /\
  4294934528 <> 0x00 * 65536 + 0x80 * 256 + 0x00 /\
  _lastPPM (snd (fst (@readPPM bench_header avr Bench bench_platform
                        bench_driver (serving ppm_frame_32768))))
    = 4294934528 /\
  fst (fst (@_readSensor bench_header bench_target Bench bench_platform
              bench_driver (serving ppm_frame_32768)))
    = 0x00 * 65536 + 0x80 * 256 + 0x00.
Proof. vm_compute. repeat split; discriminate. Qed.

(** C8. The result of [readResistance] is not [(_buffer[0] * 65536 +
    _buffer[1] * 256 + _buffer[2]) * 10] on every target.  On an AVR
    board, whose [int] has 16 bits, the sound frame 0x00, 0x80, 0x00,
    0x00 gives 4294639616 and not 327680: the product [_buffer[1] * 256]
    is taken in [int] and overflows, where [_buffer[0] * 65536UL] next
    to it is widened.  With a 32-bit [int] the frame gives 327680. *)
Theorem readResistance_int16_overflow :
  _CRC8 resistance_frame_32768 5 = 0 /\
  @readResistance bench_header avr Bench bench_platform
     bench_driver (serving resistance_frame_32768)
    = (4294639616,
       mkAGS3870 26 0 0 0 0x00 AGS3870_OK [# 0x00; 0x80; 0x00; 0x00; 0x02],
       served AGS3870_RESISTANCE) /\
  4294639616 <> (0x00 * 65536 + 0x80 * 256 + 0x00) * 10 /\
  fst (fst (@readResistance bench_header bench_target Bench bench_platform
              bench_driver (serving resistance_frame_32768)))
    = (0x00 * 65536 + 0x80 * 256 + 0x00) * 10.
Proof. vm_compute. repeat split; discriminate. Qed.

(** A device that does not answer: the result is 0 and the error slot
    holds the status of the bus. *)
Lemma readResistance_failure_witness :
  readResistance bench_driver silent
    = (0, set_error 2 bench_driver,
       mkBench 100 [] [] [] [CallBegin 26; CallWrite 0x20; CallEnd true]).
Proof.
  etransitivity;
    [ refine (readResistance_failure bench_driver silent
                (snd (endTransmission true
                        (write AGS3870_RESISTANCE
                           (beginTransmission (_address bench_driver)
                                              silent))))
                (snd (requestFrom (_address bench_driver) 5
                        (snd (endTransmission true
                                (write AGS3870_RESISTANCE
                                   (beginTransmission (_address bench_driver)
                                                      silent))))))
                2 0 _ _ _)
    | vm_compute; reflexivity ].
  - vm_compute; reflexivity.
  - vm_compute; reflexivity.
  - left. discriminate.
Defined.

(** A calibration frame and a register frame with a wrong CRC byte: both
    calls fail and the records come back as they went in. *)
Lemma strict_decoders_witness :
  getZeroCalibrationData (mkZeroCalibrationData 7 9) bench_driver
                         (serving calibration_frame_bad_crc)
    = (false, mkZeroCalibrationData 7 9,
       with_frame AGS3870_ERROR_CRC [# 0x00; 0x07; 0x01; 0x2C; 0x3A]
                  bench_driver,
       served AGS3870_CALIBRATION) /\
  readRegister AGS3870_CALIBRATION
               (mkRegisterData [# 1; 2; 3; 4] 5 false) bench_driver
               (serving calibration_frame_bad_crc)
    = (false, mkRegisterData [# 1; 2; 3; 4] 5 false,
       with_frame AGS3870_ERROR_CRC [# 0x00; 0x07; 0x01; 0x2C; 0x3A]
                  bench_driver,
       served AGS3870_CALIBRATION).
Proof.
  assert (_readRegister AGS3870_CALIBRATION bench_driver
                        (serving calibration_frame_bad_crc)
    = (true, with_frame 0 [# 0x00; 0x07; 0x01; 0x2C; 0x3A] bench_driver,
       served AGS3870_CALIBRATION)) as Hrd by (vm_compute; reflexivity).
  assert (_readRegister (uint8 AGS3870_CALIBRATION) bench_driver
                        (serving calibration_frame_bad_crc)
    = (true, with_frame 0 [# 0x00; 0x07; 0x01; 0x2C; 0x3A] bench_driver,
       served AGS3870_CALIBRATION)) as Hrd' by (vm_compute; reflexivity).
  destruct (strict_decoders AGS3870_CALIBRATION
              (mkZeroCalibrationData 7 9)
              (mkRegisterData [# 1; 2; 3; 4] 5 false)
              _ _ _ _ _ _ _ _ Hrd Hrd') as [Hc Hr].
  split.
  - rewrite Hc. vm_compute. reflexivity.
  - rewrite Hr. vm_compute. reflexivity.
Defined.

(** The round trip of the test plan: [manualZeroCalibration(0x1234)]
    sends 0x00, 0x00, 0x12, 0x34 and the CRC-8 of these four bytes to
    register 0x01. *)
Lemma manualZeroCalibration_frame_witness :
  0 <= 0x1234 < 65536 /\
  _CRC8 [0x00; 0x00; 0x12; 0x34] 4 = 0x61 /\
  manualZeroCalibration 0x1234 bench_driver listening
    = (true, with_frame 0 [# 0x00; 0x00; 0x12; 0x34; 0x61] bench_driver,
       mkBench 100 [] [] []
         [CallBegin 26; CallWrite 0x01; CallWrite 0x00; CallWrite 0x00;
          CallWrite 0x12; CallWrite 0x34; CallWrite 0x61; CallEnd true]).
Proof.
  split; [lia|]. split; [vm_compute; reflexivity|].
  etransitivity;
    [ refine (manualZeroCalibration_frame 0x1234 bench_driver listening
                (mkBench 100 [] [] []
                   [CallBegin 26; CallWrite 0x01; CallWrite 0x00;
                    CallWrite 0x00; CallWrite 0x12; CallWrite 0x34;
                    CallWrite 0x61; CallEnd true])
                0 _ _)
    | vm_compute; reflexivity ].
  - lia.
  - vm_compute; reflexivity.
Defined.

(** The fallback of the test plan: a first read gives 258, a second read
    whose frame fails the CRC check gives 258 again, with the cache and
    its timestamp as the first read left them. *)
Example readPPM_fallback_scenario :
  fst (fst after_first_read) = 258 /\
  _error (snd (fst after_first_read)) = AGS3870_OK /\
  fst (fst after_second_read) = 258 /\
  _error (snd (fst after_second_read)) = AGS3870_ERROR_CRC /\
  _lastPPM (snd (fst after_second_read)) = 258 /\
  _lastRead (snd (fst after_second_read)) = 100.
Proof. vm_compute. repeat split. Qed.

(** A result of 0 from [readResistance] is a reading of 0 or a failed
    read; only the error slot tells them apart. *)
Example readResistance_zero_is_ambiguous :
  fst (fst (readResistance bench_driver
              (serving [0x00; 0x00; 0x00; 0x00; 0xD7]))) = 0 /\
  _error (snd (fst (readResistance bench_driver
                      (serving [0x00; 0x00; 0x00; 0x00; 0xD7]))))
    = AGS3870_OK /\
  fst (fst (readResistance bench_driver short_of_bytes)) = 0 /\
  _error (snd (fst (readResistance bench_driver short_of_bytes)))
    = AGS3870_ERROR_READ.
Proof. vm_compute. repeat split. Qed.

(** A calibration frame with the right CRC byte: the record takes the
    status word 7 and the value word 300. *)
Example getZeroCalibrationData_sound_frame :
  _CRC8 calibration_frame 5 = 0 /\
  fst (fst (getZeroCalibrationData (mkZeroCalibrationData 0 0) bench_driver
              (serving calibration_frame)))
    = (true, mkZeroCalibrationData 7 300).
Proof. vm_compute. split; reflexivity. Qed.

(** * Further properties of the driver *)

(** ** CRC-8 as an error detecting code *)

Lemma byte_listed (z : Z) :
  0 <= z < 256 -> In z (map Z.of_nat (seq 0 256)).
Proof.
  intros Hz. rewrite <- (Z2Nat.id z) by lia.
  apply in_map, in_seq. lia.
Qed.

(** Eight turns of the inner loop never send two bytes to the same
    place: checked on all pairs of bytes. *)
Lemma crc_shift8_injective (a b : Z) :
  0 <= a < 256 -> 0 <= b < 256 ->
  Nat.iter 8 crc_shift a = Nat.iter 8 crc_shift b -> a = b.
Proof.
  intros Ha Hb Heq.
  assert (forallb
            (fun x =>
               forallb
                 (fun y =>
                    negb (Nat.iter 8 crc_shift x =? Nat.iter 8 crc_shift y)
                    || (x =? y))
                 (map Z.of_nat (seq 0 256)))
            (map Z.of_nat (seq 0 256)) = true) as Hall
    by (vm_compute; reflexivity).
  rewrite forallb_forall in Hall.
  specialize (Hall a (byte_listed a Ha)).
  rewrite forallb_forall in Hall.
  specialize (Hall b (byte_listed b Hb)).
  rewrite Heq, Z.eqb_refl in Hall. cbn [negb orb] in Hall.
  apply Z.eqb_eq. exact Hall.
Qed.

Lemma uint8_land (z : Z) : uint8 z = Z.land z 255.
Proof.
  unfold uint8. change 255 with (Z.ones 8). rewrite Z.land_ones by lia.
  reflexivity.
Qed.

Lemma uint8_lxor (a b : Z) :
  uint8 (Z.lxor a b) = Z.lxor (uint8 a) (uint8 b).
Proof.
  rewrite !uint8_land. apply Z.bits_inj'. intros n _.
  rewrite !Z.lxor_spec, !Z.land_spec, Z.lxor_spec.
  destruct (Z.testbit a n), (Z.testbit b n), (Z.testbit 255 n); reflexivity.
Qed.

(** Two turns of the outer loop that end on the same checksum started
    from the same exclusive or. *)
Lemma crc_byte_injective (c c' x x' : Z) :
  crc_byte c x = crc_byte c' x' ->
  Z.lxor (uint8 c) (uint8 x) = Z.lxor (uint8 c') (uint8 x').
Proof.
  unfold crc_byte. intros Heq.
  apply crc_shift8_injective in Heq; try apply uint8_range.
  rewrite !uint8_lxor in Heq. exact Heq.
Qed.

Lemma lxor_cancel_l (a b c : Z) : Z.lxor a b = Z.lxor a c -> b = c.
Proof.
  intros Heq.
  rewrite <- (Z.lxor_0_l b), <- (Z.lxor_0_l c), <- (Z.lxor_nilpotent a).
  rewrite !Z.lxor_assoc, Heq. reflexivity.
Qed.

Lemma lxor_cancel_r (a b c : Z) : Z.lxor b a = Z.lxor c a -> b = c.
Proof. rewrite !(Z.lxor_comm _ a). apply lxor_cancel_l. Qed.

Lemma crc_byte_same_data (c c' x : Z) :
  0 <= c < 256 -> 0 <= c' < 256 ->
  crc_byte c x = crc_byte c' x -> c = c'.
Proof.
  intros Hc Hc' Heq. apply crc_byte_injective, lxor_cancel_r in Heq.
  rewrite !uint8_small in Heq by assumption. exact Heq.
Qed.

Lemma crc_byte_same_start (c x x' : Z) :
  crc_byte c x = crc_byte c x' -> uint8 x = uint8 x'.
Proof.
  intros Heq. apply crc_byte_injective, lxor_cancel_l in Heq. exact Heq.
Qed.

Lemma crc_byte_zero (c x : Z) :
  0 <= c < 256 -> crc_byte c x = 0 -> uint8 x = c.
Proof.
  intros Hc Heq. rewrite <- (crc_byte_self c) in Heq.
  apply crc_byte_same_start in Heq. rewrite Heq. apply uint8_small, Hc.
Qed.

(** The loop of [_CRC8] over four bytes, unrolled. *)
Lemma _CRC8_payload_unfold (b0 b1 b2 b3 : Z) :
  _CRC8 [b0; b1; b2; b3] 4
  = crc_byte (crc_byte (crc_byte (crc_byte 0xFF b0) b1) b2) b3.
Proof. unfold _CRC8. cbn [seq fold_left nth]. reflexivity. Qed.

(** X1. A frame of five bytes passes the check of the read functions
    exactly when its fifth byte is the CRC-8 of the first four. *)
Theorem _CRC8_frame_valid_iff (b0 b1 b2 b3 b4 : Z) :
  _CRC8 [b0; b1; b2; b3; b4] 5 = 0
  <-> uint8 b4 = _CRC8 [b0; b1; b2; b3] 4.
Proof.
  rewrite _CRC8_frame5, _CRC8_payload4. split.
  - apply crc_byte_zero, _CRC8_range.
  - intros Hb. unfold crc_byte.
    rewrite uint8_lxor, Hb, (uint8_small _ (_CRC8_range _ _)).
    rewrite Z.lxor_nilpotent. vm_compute. reflexivity.
Qed.

(** X2. One corrupted byte is always caught: in a frame that passes the
    check, replacing any one of the five bytes by a different byte makes
    the check fail. *)
Theorem _CRC8_detects_corrupted_byte (f : vec Z 5) (i : fin 5) (x : Z) :
  _CRC8 (vec_to_list f) 5 = 0 ->
  uint8 x <> uint8 (f !!! i) ->
  _CRC8 (vec_to_list (vinsert i x f)) 5 <> 0.
Proof.
  inv_vec f; intros b0 b1 b2 b3 b4.
  assert (forall c y, 0 <= crc_byte c y < 256) as Hr
    by (intros; apply crc_byte_range).
  assert (0 <= 0xFF < 256) as Hff by lia.
  inv_fin i; [|intros i; inv_fin i; [|intros i; inv_fin i;
    [|intros i; inv_fin i; [|intros i; inv_fin i; [|intros i; inv_fin i]]]]];
    cbn -[_CRC8 uint8];
    rewrite !_CRC8_frame5, !_CRC8_payload4, !_CRC8_payload_unfold;
    intros Hok Hne Hbad; rewrite <- Hok in Hbad;
    repeat (apply crc_byte_same_data in Hbad; [|apply Hr || exact Hff ..]);
    apply crc_byte_same_start in Hbad; contradiction.
Qed.

(** ** What the read functions depend on *)

Section Stale.

Context `{Header} {W : Type} `{Platform W}.

(** [_readRegister] looks at nothing in the driver but the bus address:
    leftovers in the error slot and in the buffer change nothing in its
    result, its error and the world, and survive in the buffer only when
    the read fails. *)
Lemma _readRegister_stale (reg e : Z) (f : vec Z 5) (d : AGS3870) (w : W) :
  _readRegister reg (with_frame e f d) w =
    (fst (fst (_readRegister reg d w)),
     if fst (fst (_readRegister reg d w))
     then snd (fst (_readRegister reg d w))
     else with_frame (_error (snd (fst (_readRegister reg d w)))) f d,
     snd (_readRegister reg d w)).
Proof.
  rewrite !_readRegister_unfold. cbn [_address with_frame].
  destruct (endTransmission _ _) as [e0 u1].
  destruct (negb (e0 =? 0)); [reflexivity|].
  destruct (requestFrom _ _ _) as [n u2].
  destruct (negb (n =? 5)); [reflexivity|].
  destruct (read u2) as [r0 u3]. destruct (read u3) as [r1 u4].
  destruct (read u4) as [r2 u5]. destruct (read u5) as [r3 u6].
  destruct (read u6) as [r4 u7]. reflexivity.
Qed.

(** Every run of [_readRegister] has one of two shapes. *)
Lemma _readRegister_shape (reg : Z) (d : AGS3870) (w : W) :
  (exists (frame : vec Z 5) (w1 : W),
     _readRegister reg d w = (true, with_frame AGS3870_OK frame d, w1) /\
     forall i : fin 5, 0 <= frame !!! i < 256) \/
  (exists (err : Z) (w1 : W),
     _readRegister reg d w = (false, set_error err d, w1)).
Proof.
  destruct (_readRegister reg d w) as [[ok d1] w1] eqn:Hrd.
  pose proof (_readRegister_frame_only _ _ _ _ _ _ Hrd) as Hd1.
  destruct ok.
  - left. destruct (_readRegister_success _ _ _ _ _ Hrd) as [He Hb].
    exists (_buffer d1), w1. rewrite He in Hd1. rewrite <- Hd1.
    split; [reflexivity | exact Hb].
  - right. exists (_error d1), w1.
    rewrite <- (_readRegister_failure _ _ _ _ _ Hrd). reflexivity.
Qed.

End Stale.

(** ** Values and their ranges *)

Section Ranges.

Context `{Header} `{Target} {W : Type} `{Platform W}.

(** X3. [getVersion] returns 0xFF when the register read fails and
    [_buffer[3]] when it succeeds, whether the CRC check passes or not; a
    CRC failure only shows in the error slot.  The result is a byte in
    every case. *)
Theorem getVersion_outcome (d d1 : AGS3870) (w w1 : W) (ok : bool) :
  _readRegister AGS3870_VERSION d w = (ok, d1, w1) ->
  getVersion d w =
    (if ok then buf d1 3%fin else 0xFF,
     if ok && negb (_CRC8 (vec_to_list (_buffer d1)) 5 =? 0)
     then set_error AGS3870_ERROR_CRC d1
     else d1,
     w1) /\
  0 <= fst (fst (getVersion d w)) <= 255.
Proof.
  intros Hrd. unfold getVersion. rewrite Hrd. destruct ok; cbn [andb].
  - split; [reflexivity|]. cbn [fst].
    destruct (_readRegister_success _ _ _ _ _ Hrd) as [_ Hb].
    specialize (Hb 3%fin). lia.
  - split; [reflexivity|]. cbn [fst]. lia.
Qed.

(** [readResistance] on a frame that was received. *)
Lemma readResistance_received (d d1 : AGS3870) (w w1 : W) :
  _readRegister AGS3870_RESISTANCE d w = (true, d1, w1) ->
  readResistance d w =
    (uint32 (composed (buf d1 0%fin) (buf d1 1%fin) (buf d1 2%fin) * 10),
     if negb (_CRC8 (vec_to_list (_buffer d1)) 5 =? 0)
     then set_error AGS3870_ERROR_CRC d1
     else d1,
     w1).
Proof.
  intros Hrd. unfold readResistance, composed. rewrite Hrd.
  destruct (negb (_CRC8 (vec_to_list (_buffer d1)) 5 =? 0)); reflexivity.
Qed.

(** With more than 16 bits in an [int] the result is ten times the 24-bit
    number. *)
Lemma readResistance_received_wide (d d1 : AGS3870) (w w1 : W) :
  16 < int_bits ->
  _readRegister AGS3870_RESISTANCE d w = (true, d1, w1) ->
  fst (fst (readResistance d w))
  = (buf d1 0%fin * 65536 + buf d1 1%fin * 256 + buf d1 2%fin) * 10.
Proof.
  intros Hw Hrd. destruct (_readRegister_success _ _ _ _ _ Hrd) as [_ Hb].
  rewrite (readResistance_received _ _ _ _ Hrd). cbn [fst].
  rewrite composed_wide by (exact Hw || apply Hb). apply uint32_small.
  pose proof (Hb 0%fin). pose proof (Hb 1%fin). pose proof (Hb 2%fin). lia.
Qed.

(** X4. On a target whose [int] has more than 16 bits, whatever the bus
    does, the result of [readResistance] is a multiple of 10 between 0
    and 167772150, ten times the largest 24-bit number: the
    multiplication by 10 never wraps. *)
Theorem readResistance_range (d : AGS3870) (w : W) :
  16 < int_bits ->
  0 <= fst (fst (readResistance d w)) <= 167772150 /\
  fst (fst (readResistance d w)) mod 10 = 0.
Proof.
  intros Hw.
  destruct (_readRegister_shape AGS3870_RESISTANCE d w)
    as [(frame & w1 & Hrd & Hb) | (err & w1 & Hrd)].
  - rewrite (readResistance_received_wide _ _ _ _ Hw Hrd).
    destruct (_readRegister_success _ _ _ _ _ Hrd) as [_ Hbuf].
    pose proof (Hbuf 0%fin). pose proof (Hbuf 1%fin).
    pose proof (Hbuf 2%fin).
    split; [lia | apply Z.mod_mul; discriminate].
  - unfold readResistance. rewrite Hrd. cbn [fst].
    change (uint32 (0 * 10)) with 0. split; [lia | reflexivity].
Qed.

(** With more than 16 bits in an [int] the decode step returns a 24-bit
    number. *)
Lemma _readSensor_value_range (d : AGS3870) (w : W) :
  16 < int_bits ->
  0 <= fst (fst (_readSensor d w)) < 16777216.
Proof.
  intros Hw.
  destruct (_readRegister_shape AGS3870_PPM d w)
    as [(frame & w1 & Hrd & Hb) | (err & w1 & Hrd)].
  - rewrite (_readSensor_received _ _ _ _ Hrd). cbn [fst].
    destruct (_readRegister_success _ _ _ _ _ Hrd) as [_ Hbuf].
    rewrite composed_wide by (exact Hw || apply Hbuf).
    pose proof (Hbuf 1%fin). pose proof (Hbuf 2%fin).
    pose proof (Hbuf 3%fin). lia.
  - unfold _readSensor. rewrite Hrd. cbn [fst]. lia.
Qed.

(** X5. [readPPM] always returns what the cache holds when it is done:
    the value it has just stored, or the value that was there. *)
Theorem readPPM_returns_cache (d : AGS3870) (w : W) :
  fst (fst (readPPM d w)) = _lastPPM (snd (fst (readPPM d w))).
Proof.
  destruct (_readSensor d w) as [[v d1] w1] eqn:Hs.
  rewrite (readPPM_after_decode _ _ _ _ _ Hs).
  destruct (_readSensor_keeps_cache _ _ _ _ _ Hs) as [Hp _].
  destruct (_error d1 =? AGS3870_OK).
  - destruct (millis w1) as [t w2]. reflexivity.
  - cbn [fst snd]. symmetry. exact Hp.
Qed.

(** X6. On a target whose [int] has more than 16 bits, a cache that holds
    a 24-bit number keeps holding one: [readPPM] returns a number below
    16777216 and leaves one in the cache. *)
Theorem readPPM_range (d : AGS3870) (w : W) :
  16 < int_bits ->
  0 <= _lastPPM d < 16777216 ->
  0 <= fst (fst (readPPM d w)) < 16777216 /\
  0 <= _lastPPM (snd (fst (readPPM d w))) < 16777216.
Proof.
  intros Hw Hc.
  assert (0 <= fst (fst (readPPM d w)) < 16777216) as Hr.
  { pose proof (_readSensor_value_range d w Hw) as Hv.
    destruct (_readSensor d w) as [[v d1] w1] eqn:Hs.
    rewrite (readPPM_after_decode _ _ _ _ _ Hs).
    destruct (_error d1 =? AGS3870_OK).
    - destruct (millis w1) as [t w2]. exact Hv.
    - exact Hc. }
  split; [exact Hr|]. revert Hr.
  destruct (_readSensor d w) as [[v d1] w1] eqn:Hs.
  rewrite (readPPM_after_decode _ _ _ _ _ Hs).
  destruct (_readSensor_keeps_cache _ _ _ _ _ Hs) as [Hp _].
  destruct (_error d1 =? AGS3870_OK).
  - destruct (millis w1) as [t w2]. intros Hr. exact Hr.
  - intros _. cbn [fst snd]. rewrite Hp. exact Hc.
Qed.

(** X16. [_readSensor] on a frame that was received, whatever the width
    of [int]: the status byte [_buffer[0]] is recorded; the error is the
    CRC error when the check fails, else not-ready when bit 0 of the
    status byte is set, else [AGS3870_OK]; the cache and its timestamp
    are not touched. *)
Theorem _readSensor_status_and_error (d d1 : AGS3870) (w w1 : W) :
  _readRegister AGS3870_PPM d w = (true, d1, w1) ->
  let result := _readSensor d w in
  let crc_ok := _CRC8 (vec_to_list (_buffer d1)) 5 = 0 in
  let not_ready := Z.land (buf d1 0%fin) 0x01 <> 0 in
  _status (snd (fst result)) = buf d1 0%fin /\
  (~ crc_ok -> _error (snd (fst result)) = AGS3870_ERROR_CRC) /\
  (crc_ok -> not_ready ->
     _error (snd (fst result)) = AGS3870_ERROR_NOT_READY) /\
  (crc_ok -> ~ not_ready -> _error (snd (fst result)) = AGS3870_OK) /\
  _lastPPM (snd (fst result)) = _lastPPM d /\
  _lastRead (snd (fst result)) = _lastRead d /\
  _buffer (snd (fst result)) = _buffer d1 /\
  snd result = w1.
Proof.
  intros Hrd result crc_ok not_ready.
  destruct (_readSensor_keeps_cache d (snd (fst result)) w (snd result)
              (fst (fst result))) as [Hp Hr];
    [subst result; destruct (_readSensor d w) as [[v d2] w2]; reflexivity|].
  subst result crc_ok not_ready. revert Hp Hr.
  rewrite (_readSensor_received _ _ _ _ Hrd).
  cbn [fst snd _error _status _buffer _lastPPM _lastRead set_error
       set_status].
  intros Hp Hr.
  split; [reflexivity|].
  destruct (Z.eqb_spec (_CRC8 (vec_to_list (_buffer d1)) 5) 0) as [Hc|Hc];
    destruct (Z.eqb_spec (Z.land (buf d1 0%fin) 1) 0) as [Hn|Hn];
    cbn [negb]; repeat split; intros; try assumption; try reflexivity;
    contradiction.
Qed.

(** X17. On a target whose [int] has more than 16 bits, [_readSensor]
    returns [_buffer[1] * 65536 + _buffer[2] * 256 + _buffer[3]] for every
    frame that was received, whether the status says ready or not and
    whether the CRC check passes or not. *)
Theorem _readSensor_value_wide_int (d d1 : AGS3870) (w w1 : W) :
  16 < int_bits ->
  _readRegister AGS3870_PPM d w = (true, d1, w1) ->
  fst (fst (_readSensor d w))
  = buf d1 1%fin * 65536 + buf d1 2%fin * 256 + buf d1 3%fin.
Proof.
  intros Hw Hrd. destruct (_readRegister_success _ _ _ _ _ Hrd) as [_ Hb].
  rewrite (_readSensor_received _ _ _ _ Hrd). cbn [fst].
  apply composed_wide; [exact Hw | apply Hb ..].
Qed.

(** X18. On a target whose [int] has more than 16 bits, [readResistance]
    returns [(_buffer[0] * 65536 + _buffer[1] * 256 + _buffer[2]) * 10]
    for every frame that was received, whatever [_buffer[3]] holds and
    whether the CRC check passes or not; the error slot holds the CRC
    error when the check fails and [AGS3870_OK] when it passes. *)
Theorem readResistance_wide_int (d d1 : AGS3870) (w w1 : W) :
  16 < int_bits ->
  _readRegister AGS3870_RESISTANCE d w = (true, d1, w1) ->
  fst (fst (readResistance d w))
    = (buf d1 0%fin * 65536 + buf d1 1%fin * 256 + buf d1 2%fin) * 10 /\
  (_CRC8 (vec_to_list (_buffer d1)) 5 <> 0 ->
     _error (snd (fst (readResistance d w))) = AGS3870_ERROR_CRC) /\
  (_CRC8 (vec_to_list (_buffer d1)) 5 = 0 ->
     _error (snd (fst (readResistance d w))) = AGS3870_OK).
Proof.
  intros Hw Hrd. split; [exact (readResistance_received_wide _ _ _ _ Hw Hrd)|].
  destruct (_readRegister_success _ _ _ _ _ Hrd) as [He _].
  rewrite (readResistance_received _ _ _ _ Hrd). cbn [fst snd].
  destruct (Z.eqb_spec (_CRC8 (vec_to_list (_buffer d1)) 5) 0) as [Hc|Hc];
    cbn [negb]; split; intros; try contradiction; try reflexivity;
    assumption.
Qed.

End Ranges.

(** ** The fallback of [readPPM], case by case *)

Section Fallback.

Context `{Header} `{Target} {W : Type} `{Platform W}.

(** X7. A PPM read that fails on the bus, with [AGS3870_OK] being 0 and
    the read error not: the cached value is returned, the error slot
    takes the status of the bus or the read error, and the cache, its
    timestamp, the status byte and the buffer are as they were. *)
Theorem readPPM_bus_failure (d : AGS3870) (w w1 w2 : W) (e n : Z) :
  AGS3870_OK = 0 ->
  AGS3870_ERROR_READ <> 0 ->
  endTransmission true
    (write AGS3870_PPM (beginTransmission (_address d) w)) = (e, w1) ->
  requestFrom (_address d) 5 w1 = (n, w2) ->
  e <> 0 \/ n <> 5 ->
  readPPM d w =
    (_lastPPM d,
     set_error (if e =? 0 then AGS3870_ERROR_READ else e) d,
     if e =? 0 then w2 else w1).
Proof.
  intros Hok Hread He Hn Hfail.
  assert (_readSensor d w =
            (0, set_error (if e =? 0 then AGS3870_ERROR_READ else e) d,
             if e =? 0 then w2 else w1)) as Hs.
  { unfold _readSensor. rewrite _readRegister_unfold, He.
    destruct (Z.eqb_spec e 0) as [E0|E0]; cbn [negb]; [|reflexivity].
    rewrite Hn. replace (n =? 5) with false
      by (symmetry; apply Z.eqb_neq; destruct Hfail; [contradiction|lia]).
    reflexivity. }
  rewrite (readPPM_after_decode _ _ _ _ _ Hs). cbn [_error set_error].
  replace (_ =? AGS3870_OK) with false; [reflexivity|].
  symmetry. apply Z.eqb_neq. rewrite Hok.
  destruct (Z.eqb_spec e 0); assumption.
Qed.

(** X8. A PPM frame with the not-ready bit, the error codes for not-ready
    and CRC being different from [AGS3870_OK]: the cached value is
    returned and the cache stays, but the status byte of the frame is
    recorded. *)
Theorem readPPM_not_ready (d d1 : AGS3870) (w w1 : W) :
  AGS3870_ERROR_NOT_READY <> AGS3870_OK ->
  AGS3870_ERROR_CRC <> AGS3870_OK ->
  _readRegister AGS3870_PPM d w = (true, d1, w1) ->
  Z.land (buf d1 0%fin) 0x01 <> 0 ->
  readPPM d w =
    (_lastPPM d,
     set_error
       (if _CRC8 (vec_to_list (_buffer d1)) 5 =? 0
        then AGS3870_ERROR_NOT_READY
        else AGS3870_ERROR_CRC)
       (set_status (buf d1 0%fin) d1),
     w1) /\
  _status (snd (fst (readPPM d w))) = buf d1 0%fin /\
  _lastPPM (snd (fst (readPPM d w))) = _lastPPM d /\
  _lastRead (snd (fst (readPPM d w))) = _lastRead d.
Proof.
  intros Hnr Hcrc Hrd Hbit.
  pose proof (_readSensor_received _ _ _ _ Hrd) as Hs.
  rewrite (proj2 (Z.eqb_neq _ _) Hbit) in Hs. cbn [negb] in Hs.
  destruct (_readSensor_keeps_cache _ _ _ _ _ Hs) as [Hp Hr].
  assert (readPPM d w =
    (_lastPPM d,
     set_error
       (if _CRC8 (vec_to_list (_buffer d1)) 5 =? 0
        then AGS3870_ERROR_NOT_READY
        else AGS3870_ERROR_CRC)
       (set_status (buf d1 0%fin) d1),
     w1)) as Heq.
  { rewrite (readPPM_after_decode _ _ _ _ _ Hs). cbn [_error set_error].
    destruct (_CRC8 (vec_to_list (_buffer d1)) 5 =? 0); cbn [negb].
    - rewrite (proj2 (Z.eqb_neq _ _) Hnr). reflexivity.
    - rewrite (proj2 (Z.eqb_neq _ _) Hcrc). reflexivity. }
  rewrite Heq. cbn [fst snd]. cbn [_lastPPM _lastRead set_error] in Hp, Hr.
  repeat split; assumption.
Qed.

(** X9. After [reset], a PPM read that does not end on [AGS3870_OK]
    returns 0: that is the fallback before the first reading. *)
Theorem reset_then_failed_read (d d0 d1 : AGS3870) (w w0 w1 : W) (v : Z) :
  reset d w = (d0, w0) ->
  _readSensor d0 w0 = (v, d1, w1) ->
  _error d1 <> AGS3870_OK ->
  readPPM d0 w0 = (0, d1, w1).
Proof.
  intros Hreset Hs He. rewrite (readPPM_after_decode _ _ _ _ _ Hs).
  rewrite (proj2 (Z.eqb_neq _ _) He).
  unfold reset in Hreset. destruct (millis w) as [t w'].
  injection Hreset as <- <-. reflexivity.
Qed.

End Fallback.

(** ** Leftovers, round trips and the strict decoders *)

Section Leftovers.

Context `{Header} `{Target} {W : Type} `{Platform W}.

(** X10. No read function lets leftovers through: whatever the error
    slot and the buffer held before the call, the result, the error slot
    after the call and the traffic on the bus are the same. *)
Theorem reads_ignore_leftovers (e address : Z) (f : vec Z 5)
    (data : ZeroCalibrationData) (reg : RegisterData)
    (d : AGS3870) (w : W) :
  outcome (readPPM (with_frame e f d) w) = outcome (readPPM d w) /\
  outcome (readResistance (with_frame e f d) w)
    = outcome (readResistance d w) /\
  outcome (getVersion (with_frame e f d) w) = outcome (getVersion d w) /\
  outcome (getZeroCalibrationData data (with_frame e f d) w)
    = outcome (getZeroCalibrationData data d w) /\
  outcome (readRegister address reg (with_frame e f d) w)
    = outcome (readRegister address reg d w).
Proof.
  assert (forall r, exists ok d1 w1,
            _readRegister r d w = (ok, d1, w1) /\
            _readRegister r (with_frame e f d) w
              = (ok, if ok then d1 else with_frame (_error d1) f d, w1) /\
            (ok = false -> d1 = set_error (_error d1) d)) as Hrd.
  { intros r. destruct (_readRegister r d w) as [[ok d1] w1] eqn:Hr.
    exists ok, d1, w1. split; [reflexivity|]. split.
    - rewrite _readRegister_stale, Hr. reflexivity.
    - intros ->. exact (_readRegister_failure _ _ _ _ _ Hr). }
  repeat split.
  - unfold readPPM, _readSensor.
    destruct (Hrd AGS3870_PPM) as (ok & d1 & w1 & -> & -> & Hfail).
    destruct ok; [reflexivity|]. specialize (Hfail eq_refl).
    set (err := _error d1) in *. clearbody err. subst d1.
    cbn [_error set_error with_frame _lastPPM].
    destruct (err =? AGS3870_OK); [|reflexivity].
    destruct (millis w1) as [t w2]. reflexivity.
  - unfold readResistance.
    destruct (Hrd AGS3870_RESISTANCE) as (ok & d1 & w1 & -> & -> & Hfail).
    destruct ok; reflexivity.
  - unfold getVersion.
    destruct (Hrd AGS3870_VERSION) as (ok & d1 & w1 & -> & -> & Hfail).
    destruct ok; reflexivity.
  - unfold getZeroCalibrationData.
    destruct (Hrd AGS3870_CALIBRATION) as (ok & d1 & w1 & -> & -> & Hfail).
    destruct ok; reflexivity.
  - unfold readRegister.
    destruct (Hrd (uint8 address)) as (ok & d1 & w1 & -> & -> & Hfail).
    destruct ok; reflexivity.
Qed.

(** [manualZeroCalibration] fills the five cells and hands over to
    [_writeRegister]. *)
Lemma manualZeroCalibration_unfold (v : Z) (d : AGS3870) (w : W) :
  manualZeroCalibration v d w =
    _writeRegister AGS3870_CALIBRATION
      (with_frame (_error d)
         [# 0x00; 0x00; uint8 (Z.shiftr (uint16 v) 8);
            uint8 (Z.land (uint16 v) 0x00FF);
            _CRC8 [0x00; 0x00; uint8 (Z.shiftr (uint16 v) 8);
                   uint8 (Z.land (uint16 v) 0x00FF)] 4]
         d)
      w.
Proof.
  destruct d as [a st lr lp s er b]. inv_vec b; intros b0 b1 b2 b3 b4.
  unfold manualZeroCalibration. cbv zeta.
  unfold set_buffer, with_frame.
  cbn -[_CRC8 uint8 uint16 Z.shiftr Z.land _writeRegister].
  rewrite _CRC8_payload4. reflexivity.
Qed.

(** [_writeRegister] leaves the buffer alone. *)
Lemma _writeRegister_buffer (reg : Z) (d : AGS3870) (w : W) :
  _buffer (snd (fst (_writeRegister reg d w))) = _buffer d.
Proof.
  unfold _writeRegister. destruct (endTransmission _ _) as [e w1].
  reflexivity.
Qed.

(** What [manualZeroCalibration] leaves in the buffer. *)
Lemma manualZeroCalibration_buffer (v : Z) (d : AGS3870) (w : W) :
  _buffer (snd (fst (manualZeroCalibration v d w)))
  = [# 0x00; 0x00; uint16 v / 256; uint16 v mod 256;
       _CRC8 [0x00; 0x00; uint16 v / 256; uint16 v mod 256] 4].
Proof.
  assert (0 <= uint16 v < 65536) as Hv
    by (unfold uint16; apply Z.mod_pos_bound; lia).
  assert (uint8 (Z.shiftr (uint16 v) 8) = uint16 v / 256) as Hhi.
  { rewrite Z.shiftr_div_pow2 by lia. change (2 ^ 8) with 256.
    apply uint8_small. split; [apply Z.div_pos; lia|].
    apply Z.div_lt_upper_bound; lia. }
  assert (uint8 (Z.land (uint16 v) 0x00FF) = uint16 v mod 256) as Hlo.
  { change 0x00FF with (Z.ones 8). rewrite Z.land_ones by lia.
    change (2 ^ 8) with 256. apply uint8_small, Z.mod_pos_bound. lia. }
  rewrite manualZeroCalibration_unfold, _writeRegister_buffer, Hhi, Hlo.
  reflexivity.
Qed.

(** X11. [manualZeroCalibration] starts from scratch: leftovers in the
    error slot and in the buffer change nothing at all, and the result
    is [true] exactly when the error slot holds 0 afterwards. *)
Theorem manualZeroCalibration_ignores_leftovers (v e : Z) (f : vec Z 5)
    (d : AGS3870) (w : W) :
  manualZeroCalibration v (with_frame e f d) w
    = manualZeroCalibration v d w /\
  (fst (fst (manualZeroCalibration v d w)) = true
   <-> _error (snd (fst (manualZeroCalibration v d w))) = 0).
Proof.
  rewrite !manualZeroCalibration_unfold. split.
  - unfold _writeRegister, buf. cbn [with_frame _address _buffer].
    destruct (endTransmission _ _) as [e0 w1]. reflexivity.
  - unfold _writeRegister.
    destruct (endTransmission _ _) as [e0 w1].
    cbn [fst snd _error set_error]. apply Z.eqb_eq.
Qed.

(** X12. Calibration round trip: when the device hands back the frame
    that [manualZeroCalibration] sent, [getZeroCalibrationData] passes
    the CRC check and decodes the status word 0 and the value that was
    written, as a 16-bit number. *)
Theorem calibration_round_trip (v : Z) (data : ZeroCalibrationData)
    (d d' dr : AGS3870) (w w' wr : W) (sent : bool) :
  manualZeroCalibration v d w = (sent, d', w') ->
  _readRegister AGS3870_CALIBRATION d' w' = (true, dr, wr) ->
  _buffer dr = _buffer d' ->
  getZeroCalibrationData data d' w'
  = (true, mkZeroCalibrationData 0 (uint16 v), set_error AGS3870_OK dr, wr).
Proof.
  intros Hw Hrd Hecho.
  pose proof (manualZeroCalibration_buffer v d w) as Hbuf.
  rewrite Hw in Hbuf. cbn [fst snd] in Hbuf. rewrite <- Hecho in Hbuf.
  assert (0 <= uint16 v < 65536) as Hv
    by (unfold uint16; apply Z.mod_pos_bound; lia).
  unfold getZeroCalibrationData. rewrite Hrd. cbn [negb].
  rewrite Hbuf. cbn [vec_to_list].
  rewrite _CRC8_frame5, _CRC8_payload4, crc_byte_self.
  cbn [Z.eqb negb]. unfold _getDataMSB, _getDataLSB, buf.
  cbn [status value set_error _buffer]. rewrite Hbuf.
  cbn -[Z.div Z.modulo uint16 Z.shiftl].
  rewrite !compose16.
  - f_equal. f_equal. f_equal. f_equal.
    rewrite (Z.div_mod (uint16 v) 256) at 3 by lia. lia.
  - split; [apply Z.div_pos; lia | apply Z.div_lt_upper_bound; lia].
  - apply Z.mod_pos_bound. lia.
  - lia.
  - lia.
Qed.

End Leftovers.

Section Strict.

Context `{Header} {W : Type} `{Platform W}.

(** X13. A record filled in by [readRegister] is consistent: the four
    data cells and the CRC cell hold bytes, the CRC cell is the CRC-8 of
    the four data cells, the validity flag is set and the error slot
    holds [AGS3870_OK]. *)
Theorem readRegister_record_consistent (address : Z)
    (reg reg' : RegisterData) (d d' : AGS3870) (w w' : W) :
  readRegister address reg d w = (true, reg', d', w') ->
  crcValid reg' = true /\
  crc reg' = _CRC8 (vec_to_list (data reg')) 4 /\
  (forall i : fin 4, 0 <= data reg' !!! i < 256) /\
  _error d' = AGS3870_OK.
Proof.
  unfold readRegister.
  destruct (_readRegister (uint8 address) d w) as [[ok d1] w1] eqn:Hrd.
  destruct ok; cbn [negb]; [|discriminate].
  destruct (Z.eqb_spec (_CRC8 (vec_to_list (_buffer d1)) 5) 0) as [Hc|Hc];
    cbn [negb]; [|discriminate].
  destruct (_readRegister_success _ _ _ _ _ Hrd) as [_ Hb].
  pose proof (Hb 0%fin) as B0. pose proof (Hb 1%fin) as B1.
  pose proof (Hb 2%fin) as B2. pose proof (Hb 3%fin) as B3.
  pose proof (Hb 4%fin) as B4. clear Hb Hrd.
  revert Hc B0 B1 B2 B3 B4.
  destruct reg as [dt c v]. inv_vec dt; intros x0 x1 x2 x3.
  destruct d1 as [a st lr lp s er b]. inv_vec b; intros b0 b1 b2 b3 b4.
  unfold buf. cbn -[_CRC8]. intros Hc B0 B1 B2 B3 B4 [= <- <- <-].
  cbn [crcValid crc data _error vec_to_list].
  rewrite _CRC8_frame5, _CRC8_payload4 in Hc.
  apply crc_byte_zero in Hc; [|apply _CRC8_range].
  rewrite uint8_small in Hc by exact B4.
  split; [reflexivity|]. split; [exact Hc|]. split; [|reflexivity].
  intros i.
  inv_fin i; [|intros i; inv_fin i; [|intros i; inv_fin i;
    [|intros i; inv_fin i; [|intros i; inv_fin i]]]]; cbn; assumption.
Qed.

(** X14. With [AGS3870_OK] being 0 and the read and CRC errors not, the
    strict decoders return [true] exactly when they leave [AGS3870_OK]
    in the error slot. *)
Theorem strict_decoders_result_is_error_slot (address : Z)
    (data : ZeroCalibrationData) (reg : RegisterData)
    (d : AGS3870) (w : W) :
  AGS3870_OK = 0 ->
  AGS3870_ERROR_READ <> 0 ->
  AGS3870_ERROR_CRC <> 0 ->
  (fst (fst (fst (getZeroCalibrationData data d w))) = true
   <-> _error (snd (fst (getZeroCalibrationData data d w))) = AGS3870_OK) /\
  (fst (fst (fst (readRegister address reg d w))) = true
   <-> _error (snd (fst (readRegister address reg d w))) = AGS3870_OK).
Proof.
  intros Hok Hread Hcrc.
  assert (forall r,
            (fst (fst (_readRegister r d w)) = true ->
             _error (snd (fst (_readRegister r d w))) = AGS3870_OK) /\
            (fst (fst (_readRegister r d w)) = false ->
             _error (snd (fst (_readRegister r d w))) <> AGS3870_OK))
    as Hrd.
  { intros r. rewrite _readRegister_unfold.
    destruct (endTransmission _ _) as [e w1].
    destruct (Z.eqb_spec e 0) as [E0|E0]; cbn [negb].
    - destruct (requestFrom _ _ _) as [n w2].
      destruct (negb (n =? 5)).
      + cbn. split; [discriminate|]. intros _. rewrite Hok. exact Hread.
      + destruct (read w2) as [r0 w3]. destruct (read w3) as [r1 w4].
        destruct (read w4) as [r2 w5]. destruct (read w5) as [r3 w6].
        destruct (read w6) as [r4 w7]. cbn.
        split; [reflexivity|discriminate].
    - cbn. split; [discriminate|]. intros _. rewrite Hok. exact E0. }
  split.
  - unfold getZeroCalibrationData.
    destruct (Hrd AGS3870_CALIBRATION) as [Ht Hf].
    destruct (_readRegister AGS3870_CALIBRATION d w) as [[ok d1] w1].
    cbn [fst snd] in Ht, Hf. destruct ok; cbn [negb].
    + destruct (negb (_CRC8 (vec_to_list (_buffer d1)) 5 =? 0)); cbn.
      * split; [discriminate|]. rewrite Hok. intros E. contradiction.
      * split; reflexivity.
    + cbn. split; [discriminate|]. intros E. destruct (Hf eq_refl E).
  - unfold readRegister.
    destruct (Hrd (uint8 address)) as [Ht Hf].
    destruct (_readRegister (uint8 address) d w) as [[ok d1] w1].
    cbn [fst snd] in Ht, Hf. destruct ok; cbn [negb].
    + destruct (negb (_CRC8 (vec_to_list (_buffer d1)) 5 =? 0)); cbn.
      * split; [discriminate|]. rewrite Hok. intros E. contradiction.
      * split; reflexivity.
    + cbn. split; [discriminate|]. intros E. destruct (Hf eq_refl E).
Qed.

End Strict.

(** ** The traffic on the bus *)

(** X15. The calls of a register read, as the bench logs them: the
    address is always written; the request for 5 bytes is made only
    after the device has acknowledged; and bytes are read, five of them,
    only when 5 were announced. *)
Theorem _readRegister_bus_calls `{Header} (reg : Z) (d : AGS3870)
    (b : Bench) :
  calls (snd (_readRegister reg d b))
  = calls b
    ++ [CallBegin (_address d); CallWrite reg; CallEnd true]
    ++ (if hd 0 (acks b) =? 0
        then CallRequest (_address d) 5
             :: (if hd 0 (counts b) =? 5
                 then [CallRead; CallRead; CallRead; CallRead; CallRead]
                 else [])
        else []).
Proof.
  rewrite _readRegister_unfold. destruct b as [t ak cn inc cl].
  cbn [endTransmission requestFrom read write beginTransmission
       bench_platform bench_log clock acks counts incoming calls].
  destruct (hd 0 ak =? 0); cbn [negb].
  - destruct (hd 0 cn =? 5);
      cbn [negb snd calls bench_log clock acks counts incoming];
      rewrite <- ?app_assoc; reflexivity.
  - cbn [negb snd calls bench_log clock acks counts incoming].
    rewrite <- ?app_assoc. reflexivity.
Qed.

(** ** Concrete runs for the further properties *)

(** The PPM frame of the bench with its third byte changed from 0x01 to
    0x03 no longer passes the check. *)
Lemma _CRC8_detects_corrupted_byte_witness :
  _CRC8 [0x00; 0x00; 0x01; 0x02; 0x41] 5 = 0 /\
  _CRC8 [0x00; 0x00; 0x03; 0x02; 0x41] 5 <> 0.
Proof.
  assert (_CRC8 (vec_to_list [# 0x00; 0x00; 0x01; 0x02; 0x41]) 5 = 0)
    as Hok by (vm_compute; reflexivity).
  split; [exact Hok|].
  refine (_CRC8_detects_corrupted_byte
            [# 0x00; 0x00; 0x01; 0x02; 0x41] 2%fin 0x03 Hok _).
  vm_compute. discriminate.
Defined.

(** Version 0x76 read from a sound frame. *)
Lemma getVersion_outcome_witness :
  _readRegister AGS3870_VERSION bench_driver (serving version_frame)
    = (true, with_frame 0 [# 0x00; 0x00; 0x00; 0x76; 0x89] bench_driver,
       served AGS3870_VERSION) /\
  getVersion bench_driver (serving version_frame)
    = (0x76, with_frame 0 [# 0x00; 0x00; 0x00; 0x76; 0x89] bench_driver,
       served AGS3870_VERSION).
Proof.
  assert (_readRegister AGS3870_VERSION bench_driver
                        (serving version_frame)
    = (true, with_frame 0 [# 0x00; 0x00; 0x00; 0x76; 0x89] bench_driver,
       served AGS3870_VERSION)) as Hrd by (vm_compute; reflexivity).
  split; [exact Hrd|].
  destruct (getVersion_outcome _ _ _ _ _ Hrd) as [Heq _].
  rewrite Heq. vm_compute. reflexivity.
Defined.

(** The bounds of [readResistance] on the 32-bit target, on a frame whose
    middle byte is 0x80. *)
Lemma readResistance_range_witness :
  16 < int_bits /\
  0 <= fst (fst (readResistance bench_driver
                   (serving resistance_frame_32768))) <= 167772150 /\
  fst (fst (readResistance bench_driver (serving resistance_frame_32768)))
    mod 10 = 0.
Proof.
  assert (16 < int_bits) as Hw by (vm_compute; reflexivity).
  split; [exact Hw|].
  exact (readResistance_range bench_driver
           (serving resistance_frame_32768) Hw).
Defined.

(** A sound frame read over a cache of 1000: the result and the cache
    are 258. *)
Lemma readPPM_range_witness :
  16 < int_bits /\
  0 <= _lastPPM cached_driver < 16777216 /\
  0 <= fst (fst (readPPM cached_driver (serving ppm_frame))) < 16777216 /\
  0 <= _lastPPM (snd (fst (readPPM cached_driver (serving ppm_frame))))
    < 16777216.
Proof.
  assert (16 < int_bits) as Hw by (vm_compute; reflexivity).
  assert (0 <= _lastPPM cached_driver < 16777216) as Hc
    by (unfold cached_driver; cbn [_lastPPM]; lia).
  split; [exact Hw|]. split; [exact Hc|].
  exact (readPPM_range cached_driver (serving ppm_frame) Hw Hc).
Defined.

(** A frame with the not-ready bit and a wrong CRC byte: the status byte
    is recorded and the error that stays is the CRC error. *)
Lemma _readSensor_status_and_error_witness :
  _readRegister AGS3870_PPM bench_driver
                (serving ppm_frame_not_ready_bad_crc)
    = (true, with_frame 0 [# 0x01; 0x00; 0x01; 0x02; 0x00] bench_driver,
       served AGS3870_PPM) /\
  _CRC8 [0x01; 0x00; 0x01; 0x02; 0x00] 5 <> 0 /\
  _status (snd (fst (_readSensor bench_driver
                       (serving ppm_frame_not_ready_bad_crc)))) = 0x01 /\
  _error (snd (fst (_readSensor bench_driver
                      (serving ppm_frame_not_ready_bad_crc))))
    = AGS3870_ERROR_CRC.
Proof.
  assert (_readRegister AGS3870_PPM bench_driver
                        (serving ppm_frame_not_ready_bad_crc)
    = (true, with_frame 0 [# 0x01; 0x00; 0x01; 0x02; 0x00] bench_driver,
       served AGS3870_PPM)) as Hrd by (vm_compute; reflexivity).
  assert (_CRC8 [0x01; 0x00; 0x01; 0x02; 0x00] 5 <> 0) as Hcrc
    by (vm_compute; discriminate).
  split; [exact Hrd|]. split; [exact Hcrc|].
  destruct (_readSensor_status_and_error _ _ _ _ Hrd)
    as (Hst & He & _).
  split; [rewrite Hst; vm_compute; reflexivity|].
  exact (He Hcrc).
Defined.

(** The frame with the middle byte 0x80 on the 32-bit target: 32768. *)
Lemma _readSensor_value_wide_int_witness :
  16 < int_bits /\
  _readRegister AGS3870_PPM bench_driver (serving ppm_frame_32768)
    = (true, with_frame 0 [# 0x00; 0x00; 0x80; 0x00; 0xF4] bench_driver,
       served AGS3870_PPM) /\
  fst (fst (_readSensor bench_driver (serving ppm_frame_32768))) = 32768.
Proof.
  assert (16 < int_bits) as Hw by (vm_compute; reflexivity).
  assert (_readRegister AGS3870_PPM bench_driver (serving ppm_frame_32768)
    = (true, with_frame 0 [# 0x00; 0x00; 0x80; 0x00; 0xF4] bench_driver,
       served AGS3870_PPM)) as Hrd by (vm_compute; reflexivity).
  split; [exact Hw|]. split; [exact Hrd|].
  rewrite (_readSensor_value_wide_int _ _ _ _ Hw Hrd).
  vm_compute. reflexivity.
Defined.

(** A resistance frame with the middle byte 0x80 and a wrong CRC byte
    on the 32-bit target: 327680, and the CRC error in the slot. *)
Lemma readResistance_wide_int_witness :
  16 < int_bits /\
  _readRegister AGS3870_RESISTANCE bench_driver
                (serving resistance_frame_32768_bad_crc)
    = (true, with_frame 0 [# 0x00; 0x80; 0x00; 0x00; 0x00] bench_driver,
       served AGS3870_RESISTANCE) /\
  _CRC8 [0x00; 0x80; 0x00; 0x00; 0x00] 5 <> 0 /\
  fst (fst (readResistance bench_driver
              (serving resistance_frame_32768_bad_crc))) = 327680 /\
  _error (snd (fst (readResistance bench_driver
                      (serving resistance_frame_32768_bad_crc))))
    = AGS3870_ERROR_CRC.
Proof.
  assert (16 < int_bits) as Hw by (vm_compute; reflexivity).
  assert (_readRegister AGS3870_RESISTANCE bench_driver
                        (serving resistance_frame_32768_bad_crc)
    = (true, with_frame 0 [# 0x00; 0x80; 0x00; 0x00; 0x00] bench_driver,
       served AGS3870_RESISTANCE)) as Hrd by (vm_compute; reflexivity).
  assert (_CRC8 [0x00; 0x80; 0x00; 0x00; 0x00] 5 <> 0) as Hcrc
    by (vm_compute; discriminate).
  split; [exact Hw|]. split; [exact Hrd|]. split; [exact Hcrc|].
  destruct (readResistance_wide_int _ _ _ _ Hw Hrd) as (Hv & He & _).
  split; [rewrite Hv; vm_compute; reflexivity|].
  exact (He Hcrc).
Defined.

(** A device that does not answer: the cached 1000 comes back and the
    error slot holds the status 2 of the bus. *)
Lemma readPPM_bus_failure_witness :
  readPPM cached_driver silent
    = (1000, set_error 2 cached_driver,
       mkBench 100 [] [] [] [CallBegin 26; CallWrite 0x00; CallEnd true]).
Proof.
  erewrite (readPPM_bus_failure cached_driver silent _ _ 2 0); cycle 1.
  - reflexivity.
  - vm_compute. discriminate.
  - vm_compute. reflexivity.
  - vm_compute. reflexivity.
  - left. discriminate.
  - vm_compute. reflexivity.
Defined.

(** A frame with the not-ready bit over a cache of 1000. *)
Lemma readPPM_not_ready_witness :
  _readRegister AGS3870_PPM cached_driver
                (serving ppm_frame_not_ready_bad_crc)
    = (true, with_frame 0 [# 0x01; 0x00; 0x01; 0x02; 0x00] cached_driver,
       served AGS3870_PPM) /\
  fst (fst (readPPM cached_driver (serving ppm_frame_not_ready_bad_crc)))
    = 1000 /\
  _status (snd (fst (readPPM cached_driver
                       (serving ppm_frame_not_ready_bad_crc)))) = 0x01.
Proof.
  assert (_readRegister AGS3870_PPM cached_driver
                        (serving ppm_frame_not_ready_bad_crc)
    = (true, with_frame 0 [# 0x01; 0x00; 0x01; 0x02; 0x00] cached_driver,
       served AGS3870_PPM)) as Hrd by (vm_compute; reflexivity).
  split; [exact Hrd|].
  assert (AGS3870_ERROR_NOT_READY <> AGS3870_OK) as Hnr
    by (vm_compute; discriminate).
  assert (AGS3870_ERROR_CRC <> AGS3870_OK) as Hcrc
    by (vm_compute; discriminate).
  assert (Z.land (buf (with_frame 0 [# 0x01; 0x00; 0x01; 0x02; 0x00]
                                  cached_driver) 0%fin) 0x01 <> 0) as Hbit
    by (vm_compute; discriminate).
  destruct (readPPM_not_ready cached_driver _ _ _ Hnr Hcrc Hrd Hbit)
    as (Heq & Hst & _ & _).
  split.
  - rewrite Heq. reflexivity.
  - rewrite Hst. vm_compute. reflexivity.
Defined.

(** [reset] wipes the cache of 1000; the read that follows fails and
    returns 0. *)
Lemma reset_then_failed_read_witness :
  reset cached_driver silent
    = (mkAGS3870 26 100 0 0 0 0 [# 0; 0; 0; 0; 0],
       mkBench 101 [2] [] [] []) /\
  readPPM (mkAGS3870 26 100 0 0 0 0 [# 0; 0; 0; 0; 0])
          (mkBench 101 [2] [] [] [])
    = (0, mkAGS3870 26 100 0 0 0 2 [# 0; 0; 0; 0; 0],
       mkBench 101 [] [] [] [CallBegin 26; CallWrite 0x00; CallEnd true]).
Proof.
  assert (reset cached_driver silent
    = (mkAGS3870 26 100 0 0 0 0 [# 0; 0; 0; 0; 0],
       mkBench 101 [2] [] [] [])) as Hreset by (vm_compute; reflexivity).
  split; [exact Hreset|].
  refine (reset_then_failed_read cached_driver _ _ silent _ _ 0 Hreset _ _).
  - vm_compute. reflexivity.
  - vm_compute. discriminate.
Defined.

(** Writing 0x1234 and reading the frame back gives 0x1234. *)
Lemma calibration_round_trip_witness :
  manualZeroCalibration 0x1234 bench_driver echoing
    = (true, with_frame 0 [# 0x00; 0x00; 0x12; 0x34; 0x61] bench_driver,
       mkBench 100 [0] [5] [0x00; 0x00; 0x12; 0x34; 0x61]
         [CallBegin 26; CallWrite 0x01; CallWrite 0x00; CallWrite 0x00;
          CallWrite 0x12; CallWrite 0x34; CallWrite 0x61; CallEnd true]) /\
  fst (fst (getZeroCalibrationData (mkZeroCalibrationData 7 9)
              (with_frame 0 [# 0x00; 0x00; 0x12; 0x34; 0x61] bench_driver)
              (mkBench 100 [0] [5] [0x00; 0x00; 0x12; 0x34; 0x61]
                 [CallBegin 26; CallWrite 0x01; CallWrite 0x00;
                  CallWrite 0x00; CallWrite 0x12; CallWrite 0x34;
                  CallWrite 0x61; CallEnd true])))
    = (true, mkZeroCalibrationData 0 0x1234).
Proof.
  assert (manualZeroCalibration 0x1234 bench_driver echoing
    = (true, with_frame 0 [# 0x00; 0x00; 0x12; 0x34; 0x61] bench_driver,
       mkBench 100 [0] [5] [0x00; 0x00; 0x12; 0x34; 0x61]
         [CallBegin 26; CallWrite 0x01; CallWrite 0x00; CallWrite 0x00;
          CallWrite 0x12; CallWrite 0x34; CallWrite 0x61; CallEnd true]))
    as Hw by (vm_compute; reflexivity).
  split; [exact Hw|].
  erewrite (calibration_round_trip 0x1234 (mkZeroCalibrationData 7 9)
              bench_driver _ _ echoing _ _ true Hw); cycle 1.
  - vm_compute. reflexivity.
  - vm_compute. reflexivity.
  - vm_compute. reflexivity.
Defined.

(** A sound calibration frame read through [readRegister]. *)
Lemma readRegister_record_consistent_witness :
  readRegister AGS3870_CALIBRATION (mkRegisterData [# 1; 2; 3; 4] 5 false)
               bench_driver (serving calibration_frame)
    = (true, mkRegisterData [# 0x00; 0x07; 0x01; 0x2C] 0x3B true,
       with_frame 0 [# 0x00; 0x07; 0x01; 0x2C; 0x3B] bench_driver,
       served AGS3870_CALIBRATION) /\
  0x3B = _CRC8 [0x00; 0x07; 0x01; 0x2C] 4.
Proof.
  assert (readRegister AGS3870_CALIBRATION
            (mkRegisterData [# 1; 2; 3; 4] 5 false)
            bench_driver (serving calibration_frame)
    = (true, mkRegisterData [# 0x00; 0x07; 0x01; 0x2C] 0x3B true,
       with_frame 0 [# 0x00; 0x07; 0x01; 0x2C; 0x3B] bench_driver,
       served AGS3870_CALIBRATION)) as Hrd by (vm_compute; reflexivity).
  split; [exact Hrd|].
  destruct (readRegister_record_consistent _ _ _ _ _ _ _ Hrd)
    as (_ & Hcrc & _ & _).
  exact Hcrc.
Defined.

(** A calibration frame with a wrong CRC byte: [false] and an error slot
    that is not [AGS3870_OK]. *)
Lemma strict_decoders_result_is_error_slot_witness :
  AGS3870_OK = 0 /\ AGS3870_ERROR_READ <> 0 /\ AGS3870_ERROR_CRC <> 0 /\
  (fst (fst (fst (getZeroCalibrationData (mkZeroCalibrationData 7 9)
                    bench_driver (serving calibration_frame_bad_crc))))
     = true
   <-> _error (snd (fst (getZeroCalibrationData (mkZeroCalibrationData 7 9)
                           bench_driver
                           (serving calibration_frame_bad_crc))))
       = AGS3870_OK).
Proof.
  assert (AGS3870_OK = 0) as Hok by reflexivity.
  assert (AGS3870_ERROR_READ <> 0) as Hread by (vm_compute; discriminate).
  assert (AGS3870_ERROR_CRC <> 0) as Hcrc by (vm_compute; discriminate).
  split; [exact Hok|]. split; [exact Hread|]. split; [exact Hcrc|].
  exact (proj1 (strict_decoders_result_is_error_slot AGS3870_CALIBRATION
                  (mkZeroCalibrationData 7 9)
                  (mkRegisterData [# 1; 2; 3; 4] 5 false)
                  bench_driver (serving calibration_frame_bad_crc)
                  Hok Hread Hcrc)).
Defined.
